(** * Eagles Events back office: cleanup sweep, quote lifecycle, message
      schema and package normalisation

    A shallow embedding of the parts of the repository that carry behaviour:
    - [Server]: the backend entry point (constants, [cleanupOldQuotations],
      [initializeApp] and the timers it arms);
    - [Lifecycle]: the quote status lifecycle;
    - [MessageModel]: the Mongoose schema of contact messages;
    - [Packages]: [normalizeFromBackend] and [fetchAllPackages] of the admin
      package screen.

    Dates are milliseconds since the epoch, as [Date.now()] returns them. *)

From Stdlib Require Import Ascii.
From stdpp Require Import gmap strings list fin_maps pretty.

(** ** Completions of JavaScript computations

    A call either returns normally or throws; for an [async] function the two
    cases are a resolved and a rejected promise. *)

Inductive Completion (E A : Type) :=
  | Normal (a : A)
  | Throw (e : E).
Arguments Normal {E A} a.
Arguments Throw {E A} e.

(** One line written to the console. *)
Inductive LogLine :=
  | ConsoleLog (msg : string)
  | ConsoleError (msg : string) (error : string).

(** ** Quotes *)

(** Modelled from the spec: the Quote model ([models/quote.js]) is not among
    the sources.  The status of a quote is one of pending, approved and
    rejected. *)
Inductive QuoteStatus := Pending | Approved | Rejected.

#[global] Instance QuoteStatus_eq_dec : EqDecision QuoteStatus.
Proof. solve_decision. Defined.

(** Modelled from the spec: the fields of a quote in the spec's data model
    (customer reference, event type, requested items, computed total, status,
    timestamps), with the identifier the store keeps it under. *)
Record Quote := {
  quote_id : Z;
  customer : Z;
  eventType : string;
  items : list string;
  total : Z;
  status : QuoteStatus;
  createdAt : Z;
  updatedAt : Z
}.

Module Server.

Local Open Scope Z_scope.

(** Constants of the entry point. *)
Definition ONE_DAY_MS : Z := 24 * 60 * 60 * 1000.
Definition THIRTY_DAYS_MS : Z := 30 * ONE_DAY_MS.
Definition STARTUP_DELAY_MS : Z := 10000.

(** *** The document store *)

(** Modelled from the spec: the Customer model ([models/customer.js]) is not
    among the sources.  A customer is a person or organization record with a
    status, which can be "quotation", and a creation timestamp; these are the
    two paths the sweep queries.  A [createdAt] that is missing, or that does
    not hold a date, is [None]. *)
Record Customer := {
  c_name : string;
  c_email : string;
  c_status : string;
  c_createdAt : option Z
}.

(** The state the backend process acts on.  [storeFault] is the condition of
    the database connection: [Some e] makes every store operation reject with
    [e].  [storeOps] counts the operations sent to the store. *)
Record World := {
  now : Z;
  customers : gmap Z Customer;
  quotes : gmap Z Quote;
  storeFault : option string;
  storeOps : nat;
  console : list LogLine
}.

Definition set_customers (m : gmap Z Customer) (w : World) : World :=
  {| now := now w; customers := m; quotes := quotes w;
     storeFault := storeFault w; storeOps := storeOps w; console := console w |}.

Definition count_storeOp (w : World) : World :=
  {| now := now w; customers := customers w; quotes := quotes w;
     storeFault := storeFault w; storeOps := S (storeOps w); console := console w |}.

Definition write_console (l : LogLine) (w : World) : World :=
  {| now := now w; customers := customers w; quotes := quotes w;
     storeFault := storeFault w; storeOps := storeOps w; console := console w ++ [l] |}.

Definition set_clock (t : Z) (w : World) : World :=
  {| now := t; customers := customers w; quotes := quotes w;
     storeFault := storeFault w; storeOps := storeOps w; console := console w |}.

Definition set_storeFault (f : option string) (w : World) : World :=
  {| now := now w; customers := customers w; quotes := quotes w;
     storeFault := f; storeOps := storeOps w; console := console w |}.

(** *** Effectful code: state passing with exceptions *)

Definition Async (A : Type) : Type := World → Completion string A * World.

Definition ret {A} (a : A) : Async A := λ w, (Normal a, w).

Definition bind {A B} (m : Async A) (k : A → Async B) : Async B :=
  λ w, match m w with
       | (Normal a, w1) => k a w1
       | (Throw e, w1) => (Throw e, w1)
       end.

(** [try { body } catch (error) { handler }] *)
Definition try_catch {A} (body : Async A) (handler : string → Async A) : Async A :=
  λ w, match body w with
       | (Normal a, w1) => (Normal a, w1)
       | (Throw e, w1) => handler e w1
       end.

#[global] Instance async_ret : MRet Async := @ret.
#[global] Instance async_bind : MBind Async := λ A B k m, bind m k.

Definition Date_now : Async Z := λ w, (Normal (now w), w).

Definition console_log (msg : string) : Async unit :=
  λ w, (Normal tt, write_console (ConsoleLog msg) w).

Definition console_error (msg error : string) : Async unit :=
  λ w, (Normal tt, write_console (ConsoleError msg error) w).

(** The query [{ status: s, createdAt: { $lt: d } }]. *)
Record CustomerQuery := {
  query_status : string;
  query_createdAt_lt : Z
}.

(** A document matches when its status is the queried string and its
    [createdAt] is a date before the queried one. *)
Definition matches (q : CustomerQuery) (c : Customer) : bool :=
  bool_decide (c_status c = query_status q)
  && match c_createdAt c with
     | Some t => bool_decide (t < query_createdAt_lt q)
     | None => false
     end.

Record DeleteResult := { deletedCount : nat }.

(** [Customer.deleteMany(query)]: one bulk operation on the customer
    collection.  When the store is at fault the operation rejects and the
    collection is as it was; otherwise every matching document is removed and
    the number of removed documents is reported. *)
Definition Customer_deleteMany (q : CustomerQuery) : Async DeleteResult :=
  λ w, let w1 := count_storeOp w in
       match storeFault w with
       | Some e => (Throw e, w1)
       | None =>
           let kept := filter (λ kv, matches q kv.2 = false) (customers w) in
           (Normal {| deletedCount := (size (customers w) - size kept)%nat |},
            set_customers kept w1)
       end.

(** [cleanupOldQuotations] (lines 72-86). *)
Definition cleanupOldQuotations : Async unit :=
  try_catch
    (t ← Date_now;
     let cutoff := t - THIRTY_DAYS_MS in
     result ← Customer_deleteMany
                {| query_status := "quotation"; query_createdAt_lt := cutoff |};
     if bool_decide (deletedCount result ≠ 0%nat)
     then console_log ("🧹 Cleaned up " +:+ pretty (deletedCount result) +:+ " old quotations")
     else mret tt)
    (λ error, console_error "Failed to clean up old quotations:" error).

(** *** Timers

    [setTimeout] and [setInterval] keep a list of armed timers.  Node replaces
    a delay outside [1, 2^31 - 1] by 1. *)

Inductive Callback :=
  | StartCleanupJob        (* the arrow function [initializeApp] passes to [setTimeout] *)
  | CleanupOldQuotations   (* [cleanupOldQuotations] passed to [setInterval] *)
  | ForceShutdown.         (* the arrow function [shutdown] passes to [setTimeout] *)

#[global] Instance Callback_eq_dec : EqDecision Callback.
Proof. solve_decision. Defined.

Record Timer := {
  due : Z;
  callback : Callback;
  repeat : option Z
}.

(** The backend process: the world it acts on, its armed timers, its exit
    code once [process.exit] was called, and (for the statements below) the
    clock readings at which [cleanupOldQuotations] was invoked, oldest
    first. *)
Record Process := {
  world : World;
  timers : list Timer;
  exitCode : option Z;
  sweeps : list Z
}.

Definition set_world (w : World) (p : Process) : Process :=
  {| world := w; timers := timers p; exitCode := exitCode p; sweeps := sweeps p |}.

Definition set_timers (l : list Timer) (p : Process) : Process :=
  {| world := world p; timers := l; exitCode := exitCode p; sweeps := sweeps p |}.

Definition process_exit (code : Z) (p : Process) : Process :=
  {| world := world p; timers := timers p; exitCode := Some code; sweeps := sweeps p |}.

Definition TIMEOUT_MAX : Z := 2 ^ 31 - 1.

Definition timer_delay (after : Z) : Z :=
  if (1 <=? after) && (after <=? TIMEOUT_MAX) then after else 1.

Definition setTimeout (cb : Callback) (after : Z) (p : Process) : Process :=
  set_timers
    (timers p ++ [{| due := now (world p) + timer_delay after;
                     callback := cb; repeat := None |}]) p.

Definition setInterval (cb : Callback) (after : Z) (p : Process) : Process :=
  set_timers
    (timers p ++ [{| due := now (world p) + timer_delay after;
                     callback := cb; repeat := Some (timer_delay after) |}]) p.

(** A call [cleanupOldQuotations()] from a timer: the returned promise is
    dropped, the effect on the world stays. *)
Definition call_cleanupOldQuotations (p : Process) : Process :=
  {| world := (cleanupOldQuotations (world p)).2;
     timers := timers p;
     exitCode := exitCode p;
     sweeps := sweeps p ++ [now (world p)] |}.

(** A [console.error] with the message alone leaves the second field
    empty. *)
Definition run_callback (cb : Callback) (p : Process) : Process :=
  match cb with
  | StartCleanupJob =>
      setInterval CleanupOldQuotations ONE_DAY_MS (call_cleanupOldQuotations p)
  | CleanupOldQuotations => call_cleanupOldQuotations p
  | ForceShutdown =>
      process_exit 1
        (set_world (write_console (ConsoleError "Forcing shutdown..." EmptyString) (world p)) p)
  end.

(** [initializeApp] (lines 49-66).  [connectDB] is imported from
    [config/db.js]; its outcome is the argument [db]. *)
Definition initializeApp (db : Completion string unit) (p : Process) : Process :=
  let p1 := set_world (write_console (ConsoleLog "🔄 Connecting to MongoDB...") (world p)) p in
  match db with
  | Normal _ =>
      let p2 := set_world
                  (write_console (ConsoleLog "✅ MongoDB connected successfully") (world p1)) p1 in
      setTimeout StartCleanupJob STARTUP_DELAY_MS p2
  | Throw error =>
      let p2 := set_world
                  (write_console (ConsoleError "❌ Failed to initialize application:" error)
                     (world p1)) p1 in
      process_exit 1 p2
  end.

(** The process as it starts: nothing armed, no sweep made. *)
Definition boot (w : World) : Process :=
  {| world := w; timers := []; exitCode := None; sweeps := [] |}.

(** *** Shutdown and uncaught exceptions (lines 94-97, 250-265) *)






(** *** The event loop as a step relation *)

(** Running a due timer: an interval is armed again one period after the
    moment it runs, then the callback runs. *)
Definition fire (tm : Timer) (rest : list Timer) (p : Process) : Process :=
  let rearmed :=
    match repeat tm with
    | Some period =>
        rest ++ [{| due := now (world p) + period; callback := callback tm;
                    repeat := Some period |}]
    | None => rest
    end in
  run_callback (callback tm) (set_timers rearmed p).

Definition advance (d : Z) (p : Process) : Process :=
  set_world (set_clock (now (world p) + d) (world p)) p.



End Server.

(** ** The quote status lifecycle

    The lifecycle engine is not among the sources; the routes that would call
    it ([routes/quoteRoutes.js]) are only imported by the entry point.  The
    definitions of this module follow sections 4.1, 6 and 7 of the spec. *)

Module Lifecycle.

Import Server.

(** Modelled from the spec: the two errors of section 7. *)
Inductive TransitionError :=
  | InvalidTransition
  | StoreUnavailable.

(** Modelled from the spec: the status strings, as the spec writes them. *)
Definition status_name (s : QuoteStatus) : string :=
  match s with
  | Pending => "pending"
  | Approved => "approved"
  | Rejected => "rejected"
  end.

(** Modelled from the spec: the status a target string names; every other
    string is an unrecognized status. *)
Definition parse_status (s : string) : option QuoteStatus :=
  if bool_decide (s = "pending") then Some Pending
  else if bool_decide (s = "approved") then Some Approved
  else if bool_decide (s = "rejected") then Some Rejected
  else None.

(** Modelled from the spec: the fixed direction pending → {approved,
    rejected}; approved and rejected are terminal. *)
Definition allowed (from to : QuoteStatus) : bool :=
  match from, to with
  | Pending, Approved | Pending, Rejected => true
  | _, _ => false
  end.

Definition set_status (s : QuoteStatus) (t : Z) (q : Quote) : Quote :=
  {| quote_id := quote_id q; customer := customer q; eventType := eventType q;
     items := items q; total := total q; status := s;
     createdAt := createdAt q; updatedAt := t |}.

Definition set_quotes (m : gmap Z Quote) (w : World) : World :=
  {| now := now w; customers := customers w; quotes := m;
     storeFault := storeFault w; storeOps := storeOps w; console := console w |}.

(** Modelled from the spec: the store's atomic single-document update of a
    quote; a store that fails gives [StoreUnavailable]. *)
Definition Quote_update (q : Quote) (w : World) : Completion TransitionError unit * World :=
  let w1 := count_storeOp w in
  match storeFault w with
  | Some _ => (Throw StoreUnavailable, w1)
  | None => (Normal tt, set_quotes (<[quote_id q := q]> (quotes w)) w1)
  end.

(** Modelled from the spec: [transitionQuote(quote, targetStatus)] of
    section 4.1, missing from the sources.  An unrecognized target is
    rejected; the current status again is a no-op; a transition the table
    does not have (every one out of a terminal state) is rejected; an allowed
    one sets the status and the updated-at timestamp and writes the record
    to the store, once. *)
Definition transitionQuote (quote : Quote) (targetStatus : string) (w : World)
  : Completion TransitionError Quote * World :=
  match parse_status targetStatus with
  | None => (Throw InvalidTransition, w)
  | Some target =>
      if bool_decide (target = status quote) then (Normal quote, w)
      else if allowed (status quote) target then
        let updated := set_status target (now w) quote in
        match Quote_update updated w with
        | (Normal _, w1) => (Normal updated, w1)
        | (Throw e, w1) => (Throw e, w1)
        end
      else (Throw InvalidTransition, w)
  end.

End Lifecycle.

(** ** The message schema ([models/message.js])

    A Mongoose schema is a definition, the list of its paths with their
    options, and the options of the schema.  [Message.create] casts the given
    values to the declared types, fills in the defaults of the paths that were
    not given, validates every path and, the option [timestamps] being set,
    stamps the document with [createdAt] and [updatedAt].

    The library is not part of the repository: the model follows its
    documented behaviour, and what depends on its version or on the date
    parser of the platform is a field of [Library].  A given value is null, a
    string or a boolean; a path given as [undefined] counts as not given.
    The identity and the version Mongoose keeps for every document ([_id],
    its alias [id], and [__v]) are not fields of a message: the model speaks
    of the inputs that do not set them ([own_fields]) and leaves those paths
    out of the documents. *)

Module MessageModel.

Local Open Scope Z_scope.

Inductive SchemaType := StringType | BooleanType | DateType.

(** A value given to [create]. *)
Inductive Value :=
  | VNull
  | VString (s : string)
  | VBoolean (b : bool).

(** A value held by a document; a date is its time in milliseconds. *)
Inductive Stored :=
  | SNull
  | SString (s : string)
  | SBoolean (b : bool)
  | SDate (t : Z).

Record SchemaPath := {
  type : SchemaType;
  required : bool;
  default : option Stored;
  enum : option (list string)
}.

Record SchemaOptions := { timestamps : bool }.

Record Schema := {
  definition : list (string * SchemaPath);
  options : SchemaOptions
}.

Definition messageSchema : Schema :=
  {| definition :=
       [ ("name",    {| type := StringType;  required := true;  default := None; enum := None |});
         ("email",   {| type := StringType;  required := true;  default := None; enum := None |});
         ("phone",   {| type := StringType;  required := false; default := None; enum := None |});
         ("subject", {| type := StringType;  required := true;  default := None; enum := None |});
         ("message", {| type := StringType;  required := true;  default := None; enum := None |});
         ("isRead",  {| type := BooleanType; required := false;
                        default := Some (SBoolean false); enum := None |});
         ("source",  {| type := StringType;  required := false;
                        default := Some (SString "contact");
                        enum := Some ["contact"; "quote"; "other"] |}) ];
     options := {| timestamps := true |} |}.

(** What the library decides: whether the enum validator passes null (it
    does from Mongoose 8 on, and fails it before), and the date a string is
    read as, if any. *)
Record Library := {
  enum_admits_null : bool;
  parse_date : string → option Z
}.

(** The paths the option [timestamps] adds to the schema. *)
Definition timestamp_paths (o : SchemaOptions) : list (string * SchemaPath) :=
  if timestamps o
  then [ ("createdAt", {| type := DateType; required := false; default := None; enum := None |});
         ("updatedAt", {| type := DateType; required := false; default := None; enum := None |}) ]
  else [].

Definition all_paths (schema : Schema) : list (string * SchemaPath) :=
  definition schema ++ timestamp_paths (options schema).


Inductive ValidatorError :=
  | CastError (path : string)
  | Required (path : string)
  | Enum (path : string).

(** Casting to the declared type.  Null is kept at every type.  A boolean
    becomes its name at a string path; at a boolean path the strings Mongoose
    converts are accepted and every other string fails; at a date path the
    empty string is null, another string is the date read in it, and a
    boolean fails. *)
Definition cast (lib : Library) (ty : SchemaType) (v : Value) : option Stored :=
  match ty, v with
  | _, VNull => Some SNull
  | StringType, VString s => Some (SString s)
  | StringType, VBoolean b => Some (SString (if b then "true" else "false"))
  | BooleanType, VBoolean b => Some (SBoolean b)
  | BooleanType, VString s =>
      if bool_decide (s ∈ ["true"; "1"; "yes"]) then Some (SBoolean true)
      else if bool_decide (s ∈ ["false"; "0"; "no"]) then Some (SBoolean false)
      else None
  | DateType, VString s =>
      if bool_decide (s = EmptyString) then Some SNull
      else SDate <$> parse_date lib s
  | DateType, VBoolean _ => None
  end.

(** The value a path of the new document gets: the given value cast, or the
    default when none was given. *)
Definition path_value (lib : Library) (sp : SchemaPath) (given : option Value)
  : option Stored :=
  match given with
  | Some v => cast lib (type sp) v
  | None => default sp
  end.

(** The document built from the given fields: schema paths only. *)
Definition construct (lib : Library) (paths : list (string * SchemaPath))
    (input : gmap string Value) : gmap string Stored :=
  foldr (λ '(k, sp) doc,
           match path_value lib sp (input !! k) with
           | Some v => <[k := v]> doc
           | None => doc
           end) ∅ paths.

Definition cast_errors (lib : Library) (paths : list (string * SchemaPath))
    (input : gmap string Value) : list ValidatorError :=
  flat_map (λ '(k, sp),
              match input !! k with
              | Some v => match cast lib (type sp) v with
                          | Some _ => []
                          | None => [CastError k]
                          end
              | None => []
              end) paths.

(** The required validator: the value is there and not null, and a string is
    not empty. *)
Definition check_required (v : option Stored) : bool :=
  match v with
  | Some (SString s) => negb (bool_decide (s = EmptyString))
  | Some (SBoolean _) | Some (SDate _) => true
  | Some SNull | None => false
  end.

(** The enum validator passes a path without a value; null is for the
    library to decide. *)
Definition check_enum (lib : Library) (values : list string) (v : option Stored) : bool :=
  match v with
  | Some (SString s) => bool_decide (s ∈ values)
  | Some SNull => enum_admits_null lib
  | Some (SBoolean _) | Some (SDate _) => false
  | None => true
  end.

Definition validate_path (lib : Library) (k : string) (sp : SchemaPath) (v : option Stored)
  : list ValidatorError :=
  (if required sp && negb (check_required v) then [Required k] else [])
  ++ match enum sp with
     | Some values => if check_enum lib values v then [] else [Enum k]
     | None => []
     end.

Definition validate (lib : Library) (paths : list (string * SchemaPath))
    (doc : gmap string Stored) : list ValidatorError :=
  flat_map (λ '(k, sp), validate_path lib k sp (doc !! k)) paths.

(** The timestamps of a new document, set when it is saved, after
    validation: [createdAt] keeps the date it was given and is the current
    time otherwise, and [updatedAt] is [createdAt]. *)
Definition stamp (now : Z) (doc : gmap string Stored) : gmap string Stored :=
  let created := match doc !! "createdAt" with
                 | Some (SDate t) => t
                 | _ => now
                 end in
  <["updatedAt" := SDate created]> (<["createdAt" := SDate created]> doc).

(** [Message.create(input)] at the time [now]: the stored document, or the
    errors that rejected it. *)
Definition create (lib : Library) (now : Z) (input : gmap string Value)
  : list ValidatorError + gmap string Stored :=
  let paths := all_paths messageSchema in
  let doc := construct lib paths input in
  match cast_errors lib paths input ++ validate lib paths doc with
  | [] => inr (if timestamps (options messageSchema) then stamp now doc else doc)
  | errors => inl errors
  end.

End MessageModel.

(** ** The admin package screen ([normalizeFromBackend], [fetchAllPackages])

    Values are what [JSON.parse] produces, plus [undefined].  A number is
    kept as an integer: the code only tests numbers for truthiness. *)

Module Packages.

#[local] Unset Elimination Schemes.
Inductive JsValue :=
  | JUndefined
  | JNull
  | JBoolean (b : bool)
  | JNumber (n : Z)
  | JString (s : string)
  | JArray (elements : list JsValue)
  | JObject (props : gmap string JsValue).
#[local] Set Elimination Schemes.

(** [ToBoolean] *)
Definition truthy (v : JsValue) : bool :=
  match v with
  | JUndefined | JNull => false
  | JBoolean b => b
  | JNumber n => negb (bool_decide (n = 0%Z))
  | JString s => negb (bool_decide (s = EmptyString))
  | JArray _ | JObject _ => true
  end.

Definition typeof (v : JsValue) : string :=
  match v with
  | JUndefined => "undefined"
  | JNull | JArray _ | JObject _ => "object"
  | JBoolean _ => "boolean"
  | JNumber _ => "number"
  | JString _ => "string"
  end.

Definition Array_isArray (v : JsValue) : bool :=
  match v with
  | JArray _ => true
  | _ => false
  end.

Definition nullish (v : JsValue) : bool :=
  match v with
  | JUndefined | JNull => true
  | _ => false
  end.

#[global] Instance completion_ret {E} : MRet (Completion E) := λ A a, Normal a.
#[global] Instance completion_bind {E} : MBind (Completion E) :=
  λ A B k m, match m with
             | Normal a => k a
             | Throw e => Throw e
             end.

(** The property read [v.key], for the names read here ([imageUrl],
    [images], [isPrimary], [url], [data]), none of which a built-in
    prototype defines: the own property of an object, [undefined] on any
    other value, and a [TypeError] on [undefined] and [null]. *)
Definition get (v : JsValue) (key : string) : Completion string JsValue :=
  match v with
  | JUndefined | JNull => Throw "TypeError"
  | JObject props => Normal (default JUndefined (props !! key))
  | _ => Normal JUndefined
  end.

(** The UTF-16 code units of a string, which is held here as its UTF-8
    bytes: a sequence of one, two or three bytes is one unit, and a sequence
    of four bytes, a character beyond U+FFFF, is the two surrogates of its
    pair (each written as the three bytes of its number).  A byte that starts
    no complete sequence is taken as a unit of its own. *)
Definition utf8_3 (u : N) : string :=
  String (ascii_of_N (224 + u / 4096))
    (String (ascii_of_N (128 + (u / 64) mod 64))
       (String (ascii_of_N (128 + u mod 64)) EmptyString)).

Fixpoint code_units (bytes : list ascii) : list string :=
  match bytes with
  | [] => []
  | a :: rest =>
      let lead := N_of_ascii a in
      let single := String a EmptyString in
      if (lead <? 192)%N || (247 <? lead)%N then single :: code_units rest
      else
        match rest with
        | [] => [single]
        | b :: rest1 =>
            if (lead <? 224)%N
            then String a (String b EmptyString) :: code_units rest1
            else
              match rest1 with
              | [] => single :: code_units rest
              | c :: rest2 =>
                  if (lead <? 240)%N
                  then String a (String b (String c EmptyString)) :: code_units rest2
                  else
                    match rest2 with
                    | [] => single :: code_units rest
                    | d :: rest3 =>
                        let point := ((lead mod 8) * 262144
                                      + (N_of_ascii b mod 64) * 4096
                                      + (N_of_ascii c mod 64) * 64
                                      + N_of_ascii d mod 64)%N in
                        utf8_3 (55296 + (point - 65536) / 1024)
                        :: utf8_3 (56320 + (point - 65536) mod 1024)
                        :: code_units rest3
                    end
              end
        end
  end.

(** The own enumerable properties an object spread [{ ...v }] copies: of a
    string, its code units under their indices. *)
Definition own_props (v : JsValue) : gmap string JsValue :=
  match v with
  | JObject props => props
  | JArray elements => list_to_map (imap (λ i x, (pretty i, x)) elements)
  | JString s =>
      list_to_map (imap (λ i u, (pretty i, JString u))
                     (code_units (String.list_ascii_of_string s)))
  | _ => ∅
  end.

(** [elements.find(pred)] *)
Fixpoint Array_find (pred : JsValue → Completion string JsValue)
    (elements : list JsValue) : Completion string JsValue :=
  match elements with
  | [] => Normal JUndefined
  | x :: rest =>
      r ← pred x;
      if truthy r then Normal x else Array_find pred rest
  end.

(** [elements.map(f)] *)
Fixpoint Array_map (f : JsValue → Completion string JsValue)
    (elements : list JsValue) : Completion string (list JsValue) :=
  match elements with
  | [] => Normal []
  | x :: rest =>
      y ← f x;
      ys ← Array_map f rest;
      Normal (y :: ys)
  end.

Definition elements_of (v : JsValue) : list JsValue :=
  match v with
  | JArray elements => elements
  | _ => []
  end.

(** [normalizeFromBackend] (lines 11-20). *)
Definition normalizeFromBackend (pkg : JsValue) : Completion string JsValue :=
  if negb (truthy pkg) || negb (bool_decide (typeof pkg = "object")) then Normal pkg
  else
    imageUrl ← get pkg "imageUrl";
    images ← get pkg "images";
    if negb (truthy imageUrl) && Array_isArray images
       && bool_decide (0 < length (elements_of images))
    then
      found ← Array_find (λ i, if truthy i then get i "isPrimary" else Normal i)
                (elements_of images);
      let primary :=
        if truthy found then found
        else default JUndefined (elements_of images !! 0) in
      if truthy primary then
        url ← get primary "url";
        if truthy url
        then Normal (JObject (<["imageUrl" := url]> (own_props pkg)))
        else Normal pkg
      else Normal pkg
    else Normal pkg.

Record Response := {
  data : JsValue;
  statusCode : Z
}.

(** [fetchAllPackages] (lines 22-34).  The outcome of [axios.get(API_URL)]
    is the argument [http]; the result is the completion of the returned
    promise and the lines written to the console. *)
Definition fetchAllPackages (http : Completion string Response)
  : Completion string JsValue * list LogLine :=
  let body : Completion string JsValue :=
    response ← http;
    inner ← (if nullish (data response) then Normal JUndefined
             else get (data response) "data");
    let payload := if nullish inner then data response else inner in
    let list := if Array_isArray payload then payload else JArray [] in
    normalized ← Array_map normalizeFromBackend (elements_of list);
    Normal (JArray normalized) in
  match body with
  | Normal result => (Normal result, [])
  | Throw error =>
      (Normal (JArray []), [ConsoleError "Error fetching packages:" error])
  end.

End Packages.

(** ** Vocabulary of the statements *)

Module Terms.

Import Server.
Local Open Scope Z_scope.

(** A customer the sweep is to delete at clock reading [t]: status
    "quotation" and a creation date more than 30 days before [t]. *)
Definition eligible (t : Z) (c : Customer) : Prop :=
  c_status c = "quotation" ∧ ∃ d, c_createdAt c = Some d ∧ d < t - 30 * 86400000.






End Terms.

Module PackageTerms.

Import Packages.

(** The value of a field of a package or of an image entry; a value that
    is not an object has no fields. *)
Definition field (v : JsValue) (key : string) : JsValue :=
  match v with
  | JObject props => default JUndefined (props !! key)
  | _ => JUndefined
  end.

(** An image entry marked as the primary one. *)
Definition marked (image : JsValue) : bool :=
  truthy image && truthy (field image "isPrimary").

(** The chosen image of a list: the first one marked isPrimary, else the
    first of the list. *)
Definition chosen (images : list JsValue) (image : JsValue) : Prop :=
  (∃ before after,
      images = before ++ image :: after
      ∧ marked image = true
      ∧ Forall (λ i, marked i = false) before)
  ∨ (Forall (λ i, marked i = false) images ∧ images !! 0 = Some image).

(** A package that lacks an image URL (none, or a falsy one) and has a
    non-empty images array whose chosen image has a URL, [url]. *)
Definition needs_imageUrl (pkg url : JsValue) : Prop :=
  ∃ props images image,
    pkg = JObject props
    ∧ truthy (field pkg "imageUrl") = false
    ∧ props !! "images" = Some (JArray images)
    ∧ images ≠ []
    ∧ chosen images image
    ∧ field image "url" = url
    ∧ truthy url = true.

(** The payload of a response body: its [data] field when it has one that
    is neither [null] nor [undefined], else the body itself. *)
Definition payload_of (body : JsValue) : JsValue :=
  match body with
  | JObject props =>
      match props !! "data" with
      | Some JUndefined | Some JNull | None => body
      | Some inner => inner
      end
  | _ => body
  end.

End PackageTerms.

(** ** Sample data *)

Module Samples.

Import Server Lifecycle MessageModel Packages.
Local Open Scope Z_scope.

Definition today : Z := 1700000000000.

Definition stale_customer : Customer :=
  {| c_name := "Thandi"; c_email := "thandi@example.com";
     c_status := "quotation"; c_createdAt := Some (today - 31 * 86400000) |}.

Definition recent_customer : Customer :=
  {| c_name := "Sipho"; c_email := "sipho@example.com";
     c_status := "quotation"; c_createdAt := Some (today - 29 * 86400000) |}.

Definition confirmed_customer : Customer :=
  {| c_name := "Lerato"; c_email := "lerato@example.com";
     c_status := "confirmed"; c_createdAt := Some (today - 90 * 86400000) |}.

Definition pending_quote : Quote :=
  {| quote_id := 7; customer := 2; eventType := "wedding";
     items := ["stretch tent"; "mobile toilet"]; total := 18500;
     status := Pending; createdAt := today - 86400000; updatedAt := today - 86400000 |}.

Definition approved_quote : Quote :=
  {| quote_id := 8; customer := 3; eventType := "funeral";
     items := ["mobile freezer"]; total := 4200;
     status := Approved; createdAt := today - 2 * 86400000; updatedAt := today - 86400000 |}.

Definition sample_world : World :=
  {| now := today;
     customers := {[ 1 := stale_customer; 2 := recent_customer; 3 := confirmed_customer ]};
     quotes := {[ 7 := pending_quote; 8 := approved_quote ]};
     storeFault := None;
     storeOps := 0;
     console := [] |}.

Definition failing_world : World := set_storeFault (Some "ECONNREFUSED") sample_world.

(** A run of the process: start, the startup delay, the first sweep, a day,
    the second sweep (with the store at fault). *)
Definition started : Process := initializeApp (Normal tt) (boot sample_world).

Definition after_delay : Process := advance 10000 started.

Definition after_first_sweep : Process :=
  fire {| due := today + 10000; callback := StartCleanupJob; repeat := None |} []
    (set_world (set_storeFault None (world after_delay)) after_delay).

Definition a_day_later : Process := advance 86400000 after_first_sweep.

Definition after_second_sweep : Process :=
  fire {| due := today + 10000 + 86400000; callback := CleanupOldQuotations;
          repeat := Some 86400000 |} []
    (set_world (set_storeFault (Some "ECONNREFUSED") (world a_day_later)) a_day_later).

Definition contact_form : gmap string Value :=
  {[ "name" := VString "Thandi"; "email" := VString "thandi@example.com";
     "subject" := VString "Tent hire"; "message" := VString "Is 12 May free?" ]}.

(** Mongoose before and from version 8, with a date parser that reads no
    string as a date: the sample forms give no dates. *)
Definition mongoose7 : Library :=
  {| enum_admits_null := false; parse_date := λ _, None |}.

Definition mongoose8 : Library :=
  {| enum_admits_null := true; parse_date := λ _, None |}.

Definition package_with_images : JsValue :=
  JObject {[ "name" := JString "Gold";
             "images" := JArray [ JObject {[ "url" := JString "/uploads/a.png" ]};
                                  JObject {[ "url" := JString "/uploads/b.png";
                                             "isPrimary" := JBoolean true ]} ] ]}.

Definition package_with_imageUrl : JsValue :=
  JObject {[ "name" := JString "Silver"; "imageUrl" := JString "/uploads/s.png";
             "images" := JArray [ JObject {[ "url" := JString "/uploads/c.png" ]} ] ]}.

End Samples.

(** ** The CORS policy of the entry point (lines 103-121)

    [String.prototype.trim] is the argument [trim]. *)

Module Cors.

Record Env := {
  NODE_ENV : option string;
  ALLOWED_ORIGINS : option string
}.

(** [s.split(',')] *)
Fixpoint split_comma (s : string) : list string :=
  match s with
  | EmptyString => [EmptyString]
  | String c rest =>
      if bool_decide (c = ","%char) then EmptyString :: split_comma rest
      else match split_comma rest with
           | piece :: pieces => String c piece :: pieces
           | [] => [String c EmptyString]
           end
  end.

Definition isDevelopment (env : Env) : bool :=
  negb (bool_decide (NODE_ENV env = Some "production")).

Definition allowedOrigins (trim : string → string) (env : Env) : list string :=
  if isDevelopment env then ["http://localhost:3000"; "http://127.0.0.1:3000"]
  else match ALLOWED_ORIGINS env with
       | Some s => filter (λ origin, origin ≠ EmptyString) (trim <$> split_comma s)
       | None => []
       end.

(** [corsOptions.origin(origin, callback)]: [Normal true] is
    [callback(null, true)], [Throw msg] is [callback(new Error(msg))].  The
    origin of a request is [None] when the header is absent. *)
Definition corsOrigin (trim : string → string) (env : Env) (origin : option string)
  : Completion string bool :=
  match origin with
  | None => Normal true
  | Some o =>
      if isDevelopment env || bool_decide (o = EmptyString)
         || bool_decide (o ∈ allowedOrigins trim env)
      then Normal true
      else Throw ("CORS: Origin " +:+ o +:+ " not allowed")
  end.

End Cors.

(** ** The package screen ([PackagesManagement], lines 101-440)

    The built-in conversions the code calls are arguments: [trim] is
    [String.prototype.trim], [lower] is [String.prototype.toLowerCase],
    [ToString] is [String(v)], [ToNumber] is [Number(v)] and [join] is
    [Array.prototype.join] with the separator [', '].  The last three throw
    a [TypeError] on a value that cannot be converted, an object whose
    [toString] is not callable for one.  On the values here, which have no
    methods of their own, a template literal and the operator [+] with a
    string convert as [String(v)] does.  The names read
    from packages here ([_id], [category], [price], [name], [description],
    [isPopular], [isFeatured], [features]) are, like the ones above, not
    defined by a built-in prototype. *)

Module Screen.

Import Packages.

(** [v !== undefined] *)
Definition defined (v : JsValue) : bool :=
  match v with
  | JUndefined => false
  | _ => true
  end.

(** [v === s] for a string [s]. *)
Definition is_string (v : JsValue) (s : string) : bool :=
  match v with
  | JString s' => bool_decide (s' = s)
  | _ => false
  end.

(** The image entry a form's [imageUrl] is sent as:
    [[{ url: imageUrl, isPrimary: true }]]. *)
Definition primary_image (imageUrl : JsValue) : JsValue :=
  JArray [JObject {[ "url" := imageUrl; "isPrimary" := JBoolean true ]}].

(** [String(v)]: a string is itself, another value is converted. *)
Definition text (ToString : JsValue → Completion string string) (v : JsValue)
  : Completion string string :=
  match v with
  | JString s => Normal s
  | _ => ToString v
  end.

(** The payload [updatePackage] sends (lines 103-111); a conversion that
    throws leaves no payload. *)
Definition updatePayload (lower : string → string)
    (ToString : JsValue → Completion string string)
    (ToNumber : JsValue → Completion string JsValue) (packageData : JsValue)
  : Completion string (gmap string JsValue) :=
  let spread := own_props packageData in
  category ← get packageData "category";
  with_category ←
    (if defined category
     then converted ← text ToString category;
          Normal (<["category" := JString (lower converted)]> spread)
     else Normal spread);
  price ← get packageData "price";
  payload ←
    (if defined price
     then basePrice ← ToNumber price;
          Normal (<["basePrice" := basePrice]> with_category)
     else Normal with_category);
  let imageUrl := default JUndefined (payload !! "imageUrl") in
  if defined imageUrl
  then Normal (<["images" := if truthy imageUrl then primary_image imageUrl else JArray []]>
                 payload)
  else Normal payload.

(** [response.data?.data || response.data] *)
Definition unwrap_or (body : JsValue) : Completion string JsValue :=
  inner ← (if nullish body then Normal JUndefined else get body "data");
  Normal (if truthy inner then inner else body).

(** What the screen shows or does besides its state. *)
Inductive Effect :=
  | Service (line : LogLine)
  | Warn (msg : string) (args : list JsValue)
  | Error (msg : string) (error : string)
  | Put (id : string) (authorization : string) (payload : gmap string JsValue)
  | Delete (id : string) (token : JsValue)
  | Navigate (href : string).

(** The header [`Bearer ${token}`]. *)
Definition bearer (ToString : JsValue → Completion string string) (token : JsValue)
  : Completion string string :=
  converted ← text ToString token;
  Normal ("Bearer " +:+ converted).

(** [updatePackage(id, packageData, token)] (lines 101-125); the outcome of
    [axios.put] is the argument [http].  The request is sent once its payload
    and its header are built. *)
Definition updatePackage (lower : string → string)
    (ToString : JsValue → Completion string string)
    (ToNumber : JsValue → Completion string JsValue)
    (id : string) (packageData token : JsValue)
    (http : Completion string Response)
  : Completion string JsValue * list Effect :=
  let request : Completion string (gmap string JsValue * string) :=
    payload ← updatePayload lower ToString ToNumber packageData;
    authorization ← bearer ToString token;
    Normal (payload, authorization) in
  match request with
  | Throw error => (Throw error, [Error "Error updating package:" error])
  | Normal (payload, authorization) =>
      let body : Completion string JsValue :=
        response ← http;
        updated ← unwrap_or (data response);
        normalizeFromBackend updated in
      match body with
      | Normal result => (Normal result, [Put id authorization payload])
      | Throw error =>
          (Throw error, [Put id authorization payload;
                         Error "Error updating package:" error])
      end
  end.

(** [getPackageById(id)] (lines 141-149). *)
Definition getPackageById (http : Completion string Response)
  : Completion string JsValue * list Effect :=
  match (response ← http; unwrap_or (data response)) with
  | Normal result => (Normal result, [])
  | Throw error => (Throw error, [Error "Error fetching package:" error])
  end.

(** [deletePackage(id, token)] (lines 127-139). *)
Definition deletePackage (id : string) (token : JsValue)
    (http : Completion string Response)
  : Completion string JsValue * list Effect :=
  match http with
  | Normal response => (Normal (data response), [Delete id token])
  | Throw error => (Throw error, [Delete id token; Error "Error deleting package:" error])
  end.

(** The list part of the component state: [packages], [loadingPage],
    [error]. *)
Record ListState := {
  packages : JsValue;
  loadingPage : bool;
  error : option string
}.

(** The component as it mounts. *)
Definition mounted : ListState :=
  {| packages := JArray []; loadingPage := true; error := None |}.

(** [loadPackages] (lines 277-299), run by the effect hook. *)
Definition loadPackages (http : Completion string Response) (s : ListState)
  : ListState * list Effect :=
  let '(fetched, lines) := fetchAllPackages http in
  let fetch_log := Service <$> lines in
  let tried : Completion string (ListState * list Effect) :=
    data ← fetched;
    if negb (truthy data) then Throw "No data received from server"
    else if negb (Array_isArray data) then
      Normal ({| packages := JArray []; loadingPage := loadingPage s;
                 error := Some "Invalid data format received from server" |},
              [Warn "Expected array but received:" [JString (typeof data); data]])
    else
      Normal ({| packages := data; loadingPage := loadingPage s; error := error s |}, []) in
  let '(s1, log) :=
    match tried with
    | Normal r => r
    | Throw err =>
        ({| packages := JArray []; loadingPage := loadingPage s;
            error := Some ("Failed to load packages: " +:+ err) |},
         [Error "Error in loadPackages:" err])
    end in
  ({| packages := packages s1; loadingPage := false; error := error s1 |},
   fetch_log ++ log).

(** [packages.filter(pkg => pkg._id !== id)] *)
Fixpoint without_id (id : string) (elements : list JsValue)
  : Completion string (list JsValue) :=
  match elements with
  | [] => Normal []
  | pkg :: rest =>
      pkg_id ← get pkg "_id";
      kept ← without_id id rest;
      Normal (if is_string pkg_id id then kept else pkg :: kept)
  end.

(** [handleDelete(id)] (lines 304-319).  The answer to [window.confirm] is
    [confirmed]; [getAuthToken] is imported from [services/api], its outcome
    is [token]; the outcome of [axios.delete] is [http]. *)
Definition handleDelete (id : string) (confirmed : bool)
    (token : Completion string JsValue) (http : Completion string Response)
    (s : ListState) : ListState * list Effect :=
  if confirmed then
    match token with
    | Throw _ =>
        ({| packages := packages s; loadingPage := loadingPage s;
            error := Some "Failed to delete package" |}, [])
    | Normal tok =>
        if negb (truthy tok) then
          ({| packages := packages s; loadingPage := loadingPage s;
              error := Some "Authentication required. Please log in again." |},
           [Navigate "/admin/login?session=expired"])
        else
          let '(deleted, log) := deletePackage id tok http in
          let filtered :=
            _ ← deleted;
            match packages s with
            | JArray elements => without_id id elements
            | _ => Throw "TypeError"
            end in
          match filtered with
          | Normal kept =>
              ({| packages := JArray kept; loadingPage := loadingPage s;
                  error := error s |}, log)
          | Throw _ =>
              ({| packages := packages s; loadingPage := loadingPage s;
                  error := Some "Failed to delete package" |}, log)
          end
    end
  else (s, []).

(** The form of a new package, shaped as the templates are. *)
Record PackageForm := {
  name : string;
  category : string;
  price : string;
  priceUnit : string;
  description : string;
  imageUrl : string;
  features : list string;
  isPopular : bool;
  isFeatured : bool
}.

Definition set_features (l : list string) (f : PackageForm) : PackageForm :=
  {| name := name f; category := category f; price := price f;
     priceUnit := priceUnit f; description := description f;
     imageUrl := imageUrl f; features := l;
     isPopular := isPopular f; isFeatured := isFeatured f |}.

(** [handleAddFeature] (lines 383-392): the new form and the new content of
    the feature input. *)
Definition handleAddFeature (trim : string → string) (newPackage : PackageForm)
    (newFeature : string) : PackageForm * string :=
  if negb (bool_decide (trim newFeature = EmptyString))
     && negb (bool_decide (trim newFeature ∈ features newPackage))
  then (set_features (features newPackage ++ [trim newFeature]) newPackage, EmptyString)
  else (newPackage, newFeature).

(** [removeFeature] (lines 394-399). *)
Definition removeFeature (newPackage : PackageForm) (featureToRemove : string)
  : PackageForm :=
  set_features (filter (λ feature, feature ≠ featureToRemove) (features newPackage))
    newPackage.

(** The view controls: [search], [categoryFilter], [onlyPopular],
    [onlyFeatured]. *)
Record ViewControls := {
  search : string;
  categoryFilter : string;
  onlyPopular : bool;
  onlyFeatured : bool
}.

(** The controls as the component mounts. *)
Definition default_controls : ViewControls :=
  {| search := EmptyString; categoryFilter := "all";
     onlyPopular := false; onlyFeatured := false |}.

(** [(v || '').toLowerCase()]: a truthy value that is not a string has no
    such method. *)
Definition lowered (lower : string → string) (v : JsValue) : Completion string string :=
  match (if truthy v then v else JString EmptyString) with
  | JString s => Normal (lower s)
  | _ => Throw "TypeError"
  end.

(** The test of [viewList] (lines 424-434); [includes] is
    [String.prototype.includes]. *)
Definition shown (lower : string → string) (includes : string → string → bool)
    (c : ViewControls) (p : JsValue) : Completion string bool :=
  if negb (truthy p) then Normal false
  else
    matchesSearch ←
      (if negb (bool_decide (search c = EmptyString)) then
         name ← get p "name";
         lowered_name ← lowered lower name;
         if includes lowered_name (lower (search c)) then Normal true
         else
           description ← get p "description";
           lowered_description ← lowered lower description;
           Normal (includes lowered_description (lower (search c)))
       else Normal true);
    category ← get p "category";
    let matchesCategory :=
      if bool_decide (categoryFilter c = "all") then true
      else is_string category (categoryFilter c) in
    isPopular ← get p "isPopular";
    let matchesPopular := if onlyPopular c then truthy isPopular else true in
    isFeatured ← get p "isFeatured";
    let matchesFeatured := if onlyFeatured c then truthy isFeatured else true in
    Normal (matchesSearch && matchesCategory && matchesPopular && matchesFeatured).

(** [elements.filter(test)] *)
Fixpoint Array_filter (test : JsValue → Completion string bool)
    (elements : list JsValue) : Completion string (list JsValue) :=
  match elements with
  | [] => Normal []
  | x :: rest =>
      keep ← test x;
      kept ← Array_filter test rest;
      Normal (if (keep : bool) then x :: kept else kept)
  end.

(** [packagesList] and [viewList] (lines 405-434). *)
Definition viewList (lower : string → string) (includes : string → string → bool)
    (c : ViewControls) (packages : JsValue) : Completion string (list JsValue) :=
  let packagesList := if Array_isArray packages then packages else JArray [] in
  Array_filter (shown lower includes c) (elements_of packagesList).

(** An error object: its message and, for an error of a request the server
    answered, the response. *)
Record JsError := {
  message : string;
  response : option Response
}.

Definition TypeError : JsError := {| message := "TypeError"; response := None |}.

(** Property reads and normalisation, with error objects. *)
Definition get_or_TypeError (v : JsValue) (key : string) : Completion JsError JsValue :=
  match get v key with
  | Normal x => Normal x
  | Throw _ => Throw TypeError
  end.

(** A conversion, with error objects. *)
Definition or_TypeError {A} (c : Completion string A) : Completion JsError A :=
  match c with
  | Normal x => Normal x
  | Throw _ => Throw TypeError
  end.

(** The payload [createNewPackage] sends (lines 40-55); the
    [(category || 'other').toLowerCase()] of a truthy category that is not a
    string throws, and so does a [Number(price)] that cannot convert. *)
Definition createPayload (lower : string → string)
    (ToNumber : JsValue → Completion string JsValue)
    (packageData : JsValue) : Completion JsError (gmap string JsValue) :=
  name ← get_or_TypeError packageData "name";
  description ← get_or_TypeError packageData "description";
  category ← get_or_TypeError packageData "category";
  lowered_category ←
    match (if truthy category then category else JString "other") with
    | JString s => Normal (lower s)
    | _ => Throw TypeError
    end;
  price ← get_or_TypeError packageData "price";
  basePrice ← (if defined price then or_TypeError (ToNumber price) else Normal JUndefined);
  features ← get_or_TypeError packageData "features";
  includedServices ← get_or_TypeError packageData "includedServices";
  includedEquipment ← get_or_TypeError packageData "includedEquipment";
  specifications ← get_or_TypeError packageData "specifications";
  isPopular ← get_or_TypeError packageData "isPopular";
  isFeatured ← get_or_TypeError packageData "isFeatured";
  images ← get_or_TypeError packageData "images";
  imageUrl ← get_or_TypeError packageData "imageUrl";
  let payload : gmap string JsValue :=
    {[ "name" := name;
       "description" := (if truthy description then description else JString EmptyString);
       "category" := JString lowered_category;
       "basePrice" := basePrice;
       "features" := (if Array_isArray features then features else JArray []);
       "includedServices" := includedServices;
       "includedEquipment" := includedEquipment;
       "specifications" := specifications;
       "isPopular" := JBoolean (truthy isPopular);
       "isFeatured" := JBoolean (truthy isFeatured);
       "images" := images ]} in
  Normal (if truthy imageUrl then <["images" := primary_image imageUrl]> payload
          else payload).

(** What the network gives for a request: no answer at all, or a
    response. *)
Inductive Reply :=
  | NoReply (reason : string)
  | Replied (r : Response).

(** [axios] with the option [validateStatus: status => status < 500]: a
    response with such a status resolves, any other rejects with an error
    that carries the response. *)
Definition axios_below_500 (reply : Reply) : Completion JsError Response :=
  match reply with
  | NoReply reason => Throw {| message := reason; response := None |}
  | Replied r =>
      if bool_decide (statusCode r < 500)%Z then Normal r
      else Throw {| message := "Request failed with status code " +:+ pretty (statusCode r);
                    response := Some r |}
  end.

(** The optional read [v?.key]. *)
Definition optional (v : JsValue) (key : string) : JsValue :=
  match get v key with
  | Normal x => x
  | Throw _ => JUndefined
  end.

(** The error built for a response with status 400 or more (lines 70-73):
    the joined validation errors after the message of the body.  Building it
    throws when the errors or the message cannot be converted. *)
Definition rejection (ToString : JsValue → Completion string string)
    (join : list JsValue → Completion string string)
    (r : Response) : Completion JsError JsError :=
  let errors := optional (data r) "errors" in
  details ←
    (if Array_isArray errors
     then joined ← or_TypeError (join (elements_of errors)); Normal (": " +:+ joined)
     else Normal EmptyString);
  let msg := optional (data r) "message" in
  head ← or_TypeError (text ToString (if truthy msg then msg
                                      else JString "Failed to create package"));
  Normal {| message := head +:+ details; response := Some r |}.

(** [createNewPackage(packageData, token)] (lines 36-99): the completion of
    the returned promise and the POST that was sent, if any, as its
    authorization header and its payload.  Whatever is thrown inside the
    [try], the error built at lines 70-74 included, goes through the
    [catch], which rewrites the message of an error without a response.  The
    lines the function writes to the console are left out. *)
Definition createNewPackage (lower : string → string)
    (ToString : JsValue → Completion string string)
    (ToNumber : JsValue → Completion string JsValue)
    (join : list JsValue → Completion string string)
    (packageData token : JsValue) (reply : Reply)
  : Completion JsError JsValue * option (string * gmap string JsValue) :=
  let finish (sent : option (string * gmap string JsValue))
             (tried : Completion JsError JsValue) :=
    match tried with
    | Normal created => (Normal created, sent)
    | Throw error =>
        (Throw (match response error with
                | Some _ => error
                | None =>
                    {| message := "Network error: Could not connect to the server. Please check your connection.";
                       response := None |}
                end), sent)
    end in
  let request : Completion JsError (gmap string JsValue * string) :=
    payload ← createPayload lower ToNumber packageData;
    authorization ← or_TypeError (bearer ToString token);
    Normal (payload, authorization) in
  match request with
  | Throw error => finish None (Throw error)
  | Normal (payload, authorization) =>
      finish (Some (authorization, payload))
        (r ← axios_below_500 reply;
         if bool_decide (400 ≤ statusCode r)%Z then
           error ← rejection ToString join r;
           Throw error
         else
           match unwrap_or (data r) with
           | Normal created =>
               match normalizeFromBackend created with
               | Normal result => Normal result
               | Throw _ => Throw TypeError
               end
           | Throw _ => Throw TypeError
           end)
  end.

End Screen.

(** ** Sample data for the screen and the CORS policy *)

Module MoreSamples.

Import Packages Screen Cors.

(** Stand-ins for the built-in conversions, exact on the inputs used here
    (lower-case ASCII without surrounding blanks). *)
Definition same (s : string) : string := s.

Definition string_of (v : JsValue) : Completion string string :=
  match v with
  | JUndefined => Normal "undefined"
  | JNull => Normal "null"
  | JBoolean b => Normal (if b then "true" else "false")
  | JNumber n => Normal (pretty n)
  | JString s => Normal s
  | JArray _ => Normal EmptyString
  | JObject props =>
      if bool_decide (is_Some (props !! "toString")) then Throw "TypeError"
      else Normal "[object Object]"
  end.

Definition number_of (v : JsValue) : Completion string JsValue :=
  match v with
  | JString "18500" => Normal (JNumber 18500)
  | JObject props =>
      if bool_decide (is_Some (props !! "toString")) then Throw "TypeError"
      else Normal v
  | _ => Normal v
  end.

Fixpoint join_of (elements : list JsValue) : Completion string string :=
  match elements with
  | [] => Normal EmptyString
  | x :: rest =>
      first ← (if nullish x then Normal EmptyString else string_of x);
      match rest with
      | [] => Normal first
      | _ => others ← join_of rest; Normal (first +:+ ", " +:+ others)
      end
  end.

(** A form whose category cannot be converted: [{ category: { toString: 5 } }]. *)
Definition odd_form : JsValue :=
  JObject {[ "name" := JString "gold";
             "category" := JObject {[ "toString" := JNumber 5 ]} ]}.

Definition starts_with : string → string → bool := λ s sub, String.prefix sub s.

Definition edit_form : JsValue :=
  JObject {[ "_id" := JString "p1"; "name" := JString "gold";
             "category" := JString "wedding"; "price" := JString "18500";
             "imageUrl" := JString "/uploads/g.png" ]}.

Definition edit_payload : gmap string JsValue :=
  {[ "_id" := JString "p1"; "name" := JString "gold";
     "category" := JString "wedding"; "price" := JString "18500";
     "basePrice" := JNumber 18500;
     "imageUrl" := JString "/uploads/g.png";
     "images" := primary_image (JString "/uploads/g.png") ]}.

Definition new_form : JsValue :=
  JObject {[ "name" := JString "gold"; "category" := JString "wedding";
             "price" := JString "18500";
             "features" := JArray [JString "1 large tent"];
             "imageUrl" := JString "/uploads/n.png";
             "isPopular" := JBoolean true ]}.

Definition new_payload : gmap string JsValue :=
  {[ "name" := JString "gold"; "description" := JString EmptyString;
     "category" := JString "wedding"; "basePrice" := JNumber 18500;
     "features" := JArray [JString "1 large tent"];
     "includedServices" := JUndefined; "includedEquipment" := JUndefined;
     "specifications" := JUndefined;
     "isPopular" := JBoolean true; "isFeatured" := JBoolean false;
     "images" := primary_image (JString "/uploads/n.png") ]}.

Definition gold : JsValue :=
  JObject {[ "_id" := JString "p1"; "name" := JString "gold";
             "category" := JString "wedding"; "isPopular" := JBoolean true ]}.

Definition silver : JsValue :=
  JObject {[ "_id" := JString "p2"; "name" := JString "silver";
             "category" := JString "private" ]}.

Definition listed : ListState :=
  {| packages := JArray [gold; silver]; loadingPage := false; error := None |}.

Definition starter_form : PackageForm :=
  {| name := "Starter Package"; category := "private"; price := "8500";
     priceUnit := "ZAR"; description := "Perfect for small events";
     imageUrl := EmptyString;
     features := ["1 Medium Tent (10m x 20m)"; "1 VIP Mobile Toilet"];
     isPopular := true; isFeatured := false |}.

Definition production : Env :=
  {| NODE_ENV := Some "production";
     ALLOWED_ORIGINS := Some "https://eaglesevents.co.za,https://admin.eaglesevents.co.za" |}.

End MoreSamples.

(** * Properties *)

Section sweep.

Import Server Terms.
Local Open Scope Z_scope.

Lemma matches_eligible t c :
  matches {| query_status := "quotation"; query_createdAt_lt := t - THIRTY_DAYS_MS |} c = true
  ↔ eligible t c.
Proof.
  unfold matches, eligible; simpl.
  change THIRTY_DAYS_MS with (30 * 86400000).
  rewrite andb_true_iff, bool_decide_eq_true.
  split.
  - intros [Hs Hd]. split; [done|].
    destruct (c_createdAt c) as [d|]; [|done].
    apply bool_decide_eq_true in Hd. eauto.
  - intros [Hs (d & -> & Hd)]. split; [done|]. by apply bool_decide_eq_true.
Qed.

(** The customers left by a sweep at clock reading [t]. *)
Lemma cleanup_world w :
  storeFault w = None →
  ∃ w', cleanupOldQuotations w = (Normal tt, w')
        ∧ customers w'
          = filter (λ kv, matches {| query_status := "quotation";
                                     query_createdAt_lt := now w - THIRTY_DAYS_MS |}
                            kv.2 = false) (customers w)
        ∧ quotes w' = quotes w
        ∧ storeOps w' = S (storeOps w)
        ∧ now w' = now w
        ∧ (customers w' = customers w → console w' = console w).
Proof.
  intros Hf.
  unfold cleanupOldQuotations, try_catch, mbind, async_bind, bind, Date_now,
    Customer_deleteMany.
  rewrite Hf. cbn [deletedCount].
  set (kept := filter _ (customers w)).
  case_bool_decide as Hn.
  - eexists; split; [reflexivity|]. cbn. repeat split; try done.
    intros Heq. exfalso. apply Hn. fold kept in Heq. rewrite Heq. lia.
  - eexists; split; [reflexivity|]. cbn. repeat split; done.
Qed.

Lemma cleanup_fault w e :
  storeFault w = Some e →
  cleanupOldQuotations w
  = (Normal tt,
     write_console (ConsoleError "Failed to clean up old quotations:" e)
       (count_storeOp w)).
Proof.
  intros Hf.
  unfold cleanupOldQuotations, try_catch, mbind, async_bind, bind, Date_now,
    Customer_deleteMany.
  by rewrite Hf.
Qed.


(** C1. When the store answers, one invocation of the sweep deletes a
    customer record if and only if its status is "quotation" and its creation
    date is strictly before now - 30 days.  A quotation-status customer
    created 31 days ago is deleted, one created 29 days ago is retained. *)
Theorem cleanup_deletes_iff_stale_quotation (w : World) (id : Z) (c : Customer) :
  storeFault w = None →
  customers w !! id = Some c →
  let w' := (cleanupOldQuotations w).2 in
  (customers w' !! id = None
   ↔ c_status c = "quotation"
     ∧ ∃ d, c_createdAt c = Some d ∧ d < now w - 30 * 86400000)
  ∧ (customers w' !! id = None ∨ customers w' !! id = Some c)
  ∧ (c_status c = "quotation" → c_createdAt c = Some (now w - 31 * 86400000) →
     customers w' !! id = None)
  ∧ (c_status c = "quotation" → c_createdAt c = Some (now w - 29 * 86400000) →
     customers w' !! id = Some c).
Proof.
  intros Hf Hc.
  destruct (cleanup_world w Hf) as (w1 & Hrun & Hcs & _).
  rewrite Hrun; cbn [snd]. rewrite Hcs.
  assert (Hiff : filter (λ kv, matches {| query_status := "quotation";
                   query_createdAt_lt := now w - THIRTY_DAYS_MS |} kv.2 = false)
                   (customers w) !! id = None ↔ eligible (now w) c).
  { rewrite map_lookup_filter_None. rewrite <- matches_eligible. split.
    - intros [Hnone | Hall]; [congruence|].
      specialize (Hall c Hc). cbn in Hall. by destruct (matches _ c).
    - intros Hm. right. intros c' Hc'. cbn. congruence. }
  assert (Hkeep : ¬ eligible (now w) c →
            filter (λ kv, matches {| query_status := "quotation";
              query_createdAt_lt := now w - THIRTY_DAYS_MS |} kv.2 = false)
              (customers w) !! id = Some c).
  { intros Hne. apply map_lookup_filter_Some. split; [done|]. cbn.
    rewrite <- matches_eligible in Hne. by destruct (matches _ c). }
  split; [exact Hiff|]. split; [|split].
  - destruct (matches {| query_status := "quotation";
                 query_createdAt_lt := now w - THIRTY_DAYS_MS |} c) eqn:Hm.
    + left. apply Hiff. by apply matches_eligible.
    + right. apply Hkeep. rewrite <- matches_eligible. congruence.
  - intros Hs Hd. apply Hiff. split; [done|]. exists (now w - 31 * 86400000). split; [done|lia].
  - intros Hs Hd. apply Hkeep. intros [_ (d & Hd' & Hlt)]. rewrite Hd in Hd'.
    inversion Hd'; subst. lia.
Qed.

Lemma cleanup_deletes_iff_stale_quotation_sample :
  customers (cleanupOldQuotations Samples.sample_world).2 !! 1 = None.
Proof.
  destruct (cleanup_deletes_iff_stale_quotation Samples.sample_world 1 Samples.stale_customer)
    as (_ & _ & Hold & _); [reflexivity | reflexivity |].
  apply Hold; reflexivity.
Defined.

End sweep.

Section sweep_frame.

Import Server Terms.
Local Open Scope Z_scope.

(** C5. One invocation of the sweep deletes the eligible customers and
    nothing else: a customer that is not eligible stays as it is, no record
    appears or changes, no quote is touched, the eligible ones are gone when
    the store answers, and with no eligible customer nothing is deleted,
    nothing is thrown and nothing is logged. *)
Theorem cleanup_deletes_only_eligible (w : World) :
  let r := cleanupOldQuotations w in
  r.1 = Normal tt
  ∧ quotes r.2 = quotes w
  ∧ (∀ id c, customers w !! id = Some c → ¬ eligible (now w) c →
             customers r.2 !! id = Some c)
  ∧ (∀ id c, customers r.2 !! id = Some c → customers w !! id = Some c)
  ∧ (storeFault w = None →
     ∀ id c, customers w !! id = Some c → eligible (now w) c →
             customers r.2 !! id = None)
  ∧ ((∀ id c, customers w !! id = Some c → ¬ eligible (now w) c) →
     customers r.2 = customers w
     ∧ (storeFault w = None → console r.2 = console w)).
Proof.
  cbv zeta.
  destruct (storeFault w) as [e|] eqn:Hf.
  - rewrite (cleanup_fault _ _ Hf). cbn. repeat split; auto; done.
  - destruct (cleanup_world w Hf) as (w' & -> & Hc & Hq & _ & _ & Hlog). cbn [fst snd].
    assert (Hkeep : ∀ id c, customers w !! id = Some c → ¬ eligible (now w) c →
                            customers w' !! id = Some c).
    { intros id c Hid Hne. rewrite Hc. apply map_lookup_filter_Some.
      split; [done|]. cbn. rewrite <- matches_eligible in Hne.
      by destruct (matches _ c). }
    split; [done|]. split; [done|]. split; [exact Hkeep|]. split; [|split].
    + intros id c. rewrite Hc. intros Hin. by apply map_lookup_filter_Some in Hin as [? _].
    + intros _ id c Hid He. rewrite Hc. apply map_lookup_filter_None. right.
      intros c' Hc'. cbn. apply matches_eligible in He. congruence.
    + intros Hnone.
      assert (Heq : customers w' = customers w).
      { apply map_eq. intros id. destruct (customers w !! id) as [c|] eqn:Hid.
        - eauto.
        - rewrite Hc. apply map_lookup_filter_None. by left. }
      split; [done|]. intros _. by apply Hlog.
Qed.

(** C6. When the store fails during a sweep, the sweep catches the error,
    logs it and returns normally; no customer and no quote is changed.  The
    store is asked exactly once in the invocation, and a timer that ran the
    failed sweep leaves the same timers armed as a successful run: the next
    attempt is the next scheduled run. *)
Theorem cleanup_store_failure_logged (w : World) (e : string) :
  storeFault w = Some e →
  let r := cleanupOldQuotations w in
  r.1 = Normal tt
  ∧ customers r.2 = customers w
  ∧ quotes r.2 = quotes w
  ∧ console r.2 = console w ++ [ConsoleError "Failed to clean up old quotations:" e]
  ∧ storeOps r.2 = S (storeOps w)
  ∧ (∀ p tm rest,
       world p = w →
       callback tm = CleanupOldQuotations →
       let p' := fire tm rest p in
       sweeps p' = sweeps p ++ [now w]
       ∧ customers (world p') = customers w
       ∧ exitCode p' = exitCode p
       ∧ timers p' = timers (fire tm rest (set_world (set_storeFault None w) p))).
Proof.
  intros Hf. cbv zeta. rewrite (cleanup_fault _ _ Hf). cbn [fst snd].
  do 5 (split; [done|]).
  intros p tm rest Hw Hcb. unfold fire. rewrite Hcb. cbn.
  rewrite Hw, (cleanup_fault _ _ Hf). done.
Qed.

Lemma cleanup_store_failure_logged_sample :
  (cleanupOldQuotations Samples.failing_world).1 = Normal tt
  ∧ customers (cleanupOldQuotations Samples.failing_world).2
    = customers Samples.failing_world
  ∧ storeOps (cleanupOldQuotations Samples.failing_world).2 = 1%nat.
Proof.
  destruct (cleanup_store_failure_logged Samples.failing_world "ECONNREFUSED")
    as (Hret & Hcust & _ & _ & Hops & _); [reflexivity|].
  split; [exact Hret|]. split; [exact Hcust|exact Hops].
Defined.

End sweep_frame.

Section schedule.

Import Server Terms.
Local Open Scope Z_scope.




















End schedule.

Section lifecycle.

Import Server Lifecycle.
Local Open Scope Z_scope.

Lemma parse_status_name s : parse_status (status_name s) = Some s.
Proof. by destruct s. Qed.

Lemma parse_status_Some t s : parse_status t = Some s → t = status_name s.
Proof.
  unfold parse_status. repeat case_bool_decide; intros [= <-]; done.
Qed.

(** C2. A quote that is approved or rejected admits no further transition:
    every call with a target status other than the current one fails with
    [InvalidTransition], and neither the store nor anything else is
    changed. *)
Theorem transition_from_terminal_fails (w : World) (quote : Quote) (targetStatus : string) :
  status quote = Approved ∨ status quote = Rejected →
  targetStatus ≠ status_name (status quote) →
  transitionQuote quote targetStatus w = (Throw InvalidTransition, w).
Proof.
  intros Hterm Hne. unfold transitionQuote.
  destruct (parse_status targetStatus) as [target|] eqn:Hp; [|done].
  apply parse_status_Some in Hp. subst targetStatus.
  case_bool_decide as Heq; [congruence|].
  by destruct Hterm as [-> | ->].
Qed.

(** C3. Applying the current status again is a no-op: in every status the
    call returns the record as it is, without an error, and the world is
    unchanged (also when the store is at fault). *)
Theorem transition_same_status_noop (w : World) (quote : Quote) :
  transitionQuote quote (status_name (status quote)) w = (Normal quote, w).
Proof.
  unfold transitionQuote. rewrite parse_status_name.
  by rewrite bool_decide_eq_true_2.
Qed.

(** C4. While the store answers, a pending quote moved to "approved" (or
    "rejected") succeeds: the returned record, which is the one then stored
    under the quote's id, has the target status and the current time as
    updated-at, and is otherwise the quote.  A following move of the
    approved quote to "rejected" fails with [InvalidTransition]. *)
Theorem transition_from_pending_succeeds (w : World) (quote : Quote) (target : QuoteStatus) :
  status quote = Pending →
  target = Approved ∨ target = Rejected →
  storeFault w = None →
  ∃ updated w',
    transitionQuote quote (status_name target) w = (Normal updated, w')
    ∧ status updated = target
    ∧ updatedAt updated = now w
    ∧ updated = set_status target (now w) quote
    ∧ quotes w' !! quote_id quote = Some updated
    ∧ (∀ id, id ≠ quote_id quote → quotes w' !! id = quotes w !! id)
    ∧ customers w' = customers w
    ∧ (target = Approved →
       transitionQuote updated "rejected" w' = (Throw InvalidTransition, w')).
Proof.
  intros Hp Ht Hf. unfold transitionQuote at 1. rewrite parse_status_name, Hp.
  rewrite bool_decide_eq_false_2 by (destruct Ht as [-> | ->]; done).
  assert (Hall : allowed Pending target = true) by (destruct Ht as [-> | ->]; done).
  rewrite Hall. unfold Quote_update. rewrite Hf.
  eexists _, _. split; [reflexivity|]. cbn.
  split; [done|]. split; [done|]. split; [done|].
  split; [by rewrite lookup_insert_eq|].
  split; [intros id Hid; by rewrite lookup_insert_ne|].
  split; [done|].
  intros ->. done.
Qed.

Lemma transition_from_terminal_fails_sample :
  transitionQuote Samples.approved_quote "rejected" Samples.sample_world
  = (Throw InvalidTransition, Samples.sample_world).
Proof.
  apply transition_from_terminal_fails; [left; reflexivity | discriminate].
Defined.

Lemma transition_from_pending_succeeds_sample :
  ∃ updated w',
    transitionQuote Samples.pending_quote "approved" Samples.sample_world
    = (Normal updated, w')
    ∧ status updated = Approved
    ∧ quotes w' !! 7 = Some updated.
Proof.
  destruct (transition_from_pending_succeeds Samples.sample_world Samples.pending_quote Approved)
    as (updated & w' & Hrun & Hst & _ & _ & Hstored & _);
    [reflexivity | left; reflexivity | reflexivity |].
  exists updated, w'. split; [exact Hrun|]. split; [exact Hst|exact Hstored].
Defined.

End lifecycle.

Section message_schema.

Import MessageModel.












End message_schema.

Section packages.

Import Packages PackageTerms.

Lemma get_field v key : nullish v = false → get v key = Normal (field v key).
Proof. by destruct v. Qed.

Lemma truthy_not_nullish v : truthy v = true → nullish v = false.
Proof. by destruct v. Qed.

(** What [find] with the callback of [normalizeFromBackend] returns. *)
Lemma find_primary images :
  (∃ before image after,
      images = before ++ image :: after
      ∧ marked image = true
      ∧ Forall (λ i, marked i = false) before
      ∧ Array_find (λ i, if truthy i then get i "isPrimary" else Normal i) images
        = Normal image)
  ∨ (Forall (λ i, marked i = false) images
     ∧ Array_find (λ i, if truthy i then get i "isPrimary" else Normal i) images
       = Normal JUndefined).
Proof.
  induction images as [|x rest IH]; [right; by split|].
  cbn [Array_find].
  destruct (marked x) eqn:Hm.
  - left. exists [], x, rest. split; [done|]. split; [done|]. split; [done|].
    unfold marked in Hm. apply andb_true_iff in Hm as [Hx Hp].
    rewrite Hx, get_field by by apply truthy_not_nullish. cbn. by rewrite Hp.
  - assert (Hstep : (y ← (if truthy x then get x "isPrimary" else Normal x);
                     if truthy y then Normal x
                     else Array_find (λ i, if truthy i then get i "isPrimary" else Normal i) rest)
                    = Array_find (λ i, if truthy i then get i "isPrimary" else Normal i) rest).
    { unfold marked in Hm. destruct (truthy x) eqn:Hx.
      - rewrite get_field by by apply truthy_not_nullish. cbn. cbn in Hm. by rewrite Hm.
      - cbn. by rewrite Hx. }
    rewrite Hstep.
    destruct IH as [(before & image & after & -> & Hi & Hb & Hf) | [Hall Hf]].
    + left. exists (x :: before), image, after. split; [done|]. split; [done|].
      split; [by constructor|done].
    + right. split; [by constructor|done].
Qed.

Lemma chosen_unique images i1 i2 : chosen images i1 → chosen images i2 → i1 = i2.
Proof.
  revert i1 i2. induction images as [|x rest IH]; intros i1 i2 H1 H2.
  - destruct H1 as [(b & a & Heq & _) | [_ Hh]]; [by destruct b|done].
  - destruct (marked x) eqn:Hx.
    + assert (Hhead : ∀ i, chosen (x :: rest) i → i = x).
      { intros i [(b & a & Heq & Hi & Hb) | [Hall _]].
        - destruct b as [|y b]; [by inversion Heq|].
          inversion Heq; subst. inversion Hb; subst. congruence.
        - inversion Hall; subst. congruence. }
      by rewrite (Hhead _ H1), (Hhead _ H2).
    + destruct H1 as [(b1 & a1 & Heq1 & Hi1 & Hb1) | [Hall1 Hh1]];
        destruct H2 as [(b2 & a2 & Heq2 & Hi2 & Hb2) | [Hall2 Hh2]].
      * destruct b1 as [|y1 b1]; [inversion Heq1; congruence|].
        destruct b2 as [|y2 b2]; [inversion Heq2; congruence|].
        inversion Heq1; inversion Heq2; subst.
        inversion Hb1; inversion Hb2; subst.
        apply IH; left; eauto 10.
      * exfalso. rewrite Heq1 in Hall2. apply Forall_app in Hall2 as [_ Hall2].
        inversion Hall2; subst. congruence.
      * exfalso. rewrite Heq2 in Hall1. apply Forall_app in Hall1 as [_ Hall1].
        inversion Hall1; subst. congruence.
      * cbn in Hh1, Hh2. congruence.
Qed.

Lemma needs_imageUrl_unique pkg u1 u2 :
  needs_imageUrl pkg u1 → needs_imageUrl pkg u2 → u1 = u2.
Proof.
  intros (o1 & l1 & i1 & -> & _ & Hl1 & _ & Hc1 & <- & _)
         (o2 & l2 & i2 & [= <-] & _ & Hl2 & _ & Hc2 & <- & _).
  rewrite Hl1 in Hl2. injection Hl2 as <-.
  by rewrite (chosen_unique _ _ _ Hc1 Hc2).
Qed.

(** [normalizeFromBackend] never throws, and either fills in the image URL
    of a package that needs one or returns its argument. *)
Lemma normalizeFromBackend_cases pkg :
  (∃ props url,
      pkg = JObject props ∧ needs_imageUrl pkg url
      ∧ normalizeFromBackend pkg = Normal (JObject (<["imageUrl" := url]> props)))
  ∨ ((∀ url, ¬ needs_imageUrl pkg url) ∧ normalizeFromBackend pkg = Normal pkg).
Proof.
  destruct pkg as [| |b|n|s|l|o];
    try (right; split; [by intros url (? & ? & ? & ? & _)|]).
  1-2: done.
  - by destruct b.
  - unfold normalizeFromBackend. cbn. by destruct (negb (bool_decide (n = 0%Z))).
  - unfold normalizeFromBackend. cbn. by destruct (negb (bool_decide (s = EmptyString))).
  - done.
  - unfold normalizeFromBackend.
    cbn [truthy typeof negb orb get mbind completion_bind].
    rewrite bool_decide_eq_true_2 by done. cbn [negb].
    change (default JUndefined (o !! "imageUrl")) with (field (JObject o) "imageUrl").
    destruct (truthy (field (JObject o) "imageUrl")) eqn:Himg.
    { right. split; [|done]. intros url (? & ? & ? & [= <-] & Hno & _). congruence. }
    cbn [negb andb].
    destruct (o !! "images") as [images|] eqn:Himages; cbn [default from_option id];
      [|right; split; [intros url (? & ? & ? & [= <-] & _ & ? & _); congruence|done]].
    destruct images as [| |b|n|s|images|o'];
      try (right; split; [intros url (? & ? & ? & [= <-] & _ & ? & _); congruence|done]).
    cbn [Array_isArray andb elements_of own_props].
    case_bool_decide as Hlen;
      [|right; split;
        [intros url (? & l' & ? & [= <-] & _ & Hl' & Hne & _);
         rewrite Himages in Hl'; injection Hl' as <-; destruct images; [done|cbn in Hlen; lia]
        |done]].
    assert (Hne : images ≠ []) by (intros ->; cbn in Hlen; lia).
    (* the chosen image, as the code computes it *)
    assert (Hchosen : ∃ found primary,
      Array_find (λ i, if truthy i then get i "isPrimary" else Normal i) images = Normal found
      ∧ primary = (if truthy found then found else default JUndefined (images !! 0))
      ∧ chosen images primary).
    { destruct (find_primary images) as [(before & image & after & Heq & Hm & Hb & Hf) | [Hall Hf]].
      - exists image, image. split; [done|].
        assert (truthy image = true) as -> by (unfold marked in Hm; by apply andb_true_iff in Hm as [? _]).
        split; [done|]. left. eauto 10.
      - exists JUndefined. eexists. split; [done|]. split; [done|]. cbn.
        right. split; [done|]. destruct images; [done|]. done. }
    destruct Hchosen as (found & primary & Hfind & Hprim & Hch).
    rewrite Hfind. cbn [mbind completion_bind]. rewrite <- Hprim.
    destruct (truthy primary) eqn:Htp.
    + rewrite get_field by by apply truthy_not_nullish. cbn [mbind completion_bind].
      destruct (truthy (field primary "url")) eqn:Hurl.
      * left. exists o, (field primary "url"). split; [done|]. split; [|done].
        exists o, images, primary. done.
      * right. split; [|done].
        intros url (? & l' & i' & [= <-] & _ & Hl' & _ & Hc' & <- & Hu).
        rewrite Himages in Hl'. injection Hl' as <-.
        rewrite (chosen_unique _ _ _ Hc' Hch) in Hu. congruence.
    + right. split; [|done].
      intros url (? & l' & i' & [= <-] & _ & Hl' & _ & Hc' & <- & Hu).
      rewrite Himages in Hl'. injection Hl' as <-.
      rewrite (chosen_unique _ _ _ Hc' Hch) in Hu.
      destruct primary; cbn in Htp, Hu; congruence.
Qed.

(** C10. For a package object that lacks an image URL and has a non-empty
    images array whose chosen image (the first marked isPrimary, else the
    first) has a URL, [normalizeFromBackend] returns the object with
    [imageUrl] set to that URL and every other field as it was; for every
    other argument, objects or not, it returns the argument. *)
Theorem normalizeFromBackend_fills_imageUrl (pkg : JsValue) :
  (∀ url, needs_imageUrl pkg url →
     ∃ props result,
       pkg = JObject props
       ∧ normalizeFromBackend pkg = Normal (JObject result)
       ∧ result !! "imageUrl" = Some url
       ∧ ∀ key, key ≠ "imageUrl" → result !! key = props !! key)
  ∧ ((∀ url, ¬ needs_imageUrl pkg url) → normalizeFromBackend pkg = Normal pkg).
Proof.
  destruct (normalizeFromBackend_cases pkg) as [(props & u & -> & Hneeds & Hrun) | [Hnone Hrun]].
  - split.
    + intros url Hurl. rewrite (needs_imageUrl_unique _ _ _ Hurl Hneeds).
      exists props, (<["imageUrl" := u]> props).
      split; [done|]. split; [done|]. split; [by rewrite lookup_insert_eq|].
      intros key Hkey. by rewrite lookup_insert_ne.
    + intros Hnone. by destruct (Hnone u).
  - split; [|done]. intros url Hurl. by destruct (Hnone url).
Qed.

Lemma Array_map_normalize elements :
  ∃ result,
    Array_map normalizeFromBackend elements = Normal result
    ∧ Forall2 (λ x y, normalizeFromBackend x = Normal y) elements result.
Proof.
  induction elements as [|x rest (result & Hmap & Hall)].
  - exists []. split; [done|constructor].
  - assert (Hx : ∃ y, normalizeFromBackend x = Normal y).
    { destruct (normalizeFromBackend_cases x) as [(? & ? & _ & _ & ->) | [_ ->]]; eauto. }
    destruct Hx as [y Hy]. exists (y :: result). cbn [Array_map].
    rewrite Hy. cbn [mbind completion_bind]. rewrite Hmap. split; [done|by constructor].
Qed.

(** [response.data?.data ?? response.data] is the payload of the body. *)
Lemma unwrap_payload body :
  ∃ inner,
    (if nullish body then Normal JUndefined else get body "data") = Normal inner
    ∧ (if nullish inner then body else inner) = payload_of body.
Proof.
  destruct body as [| |b|n|s|l|o]; try (by exists JUndefined).
  cbn. destruct (o !! "data") as [inner|] eqn:Hd; cbn.
  - exists inner. split; [done|]. by destruct inner.
  - by exists JUndefined.
Qed.

(** C9. [fetchAllPackages] always resolves to an array: the empty one when
    the request fails (the error is logged, not thrown) or when the payload,
    the body with its data field unwrapped, is not an array; otherwise the
    payload with [normalizeFromBackend] applied to each element. *)
Theorem fetchAllPackages_returns_array (http : Completion string Response) :
  (∃ result log, fetchAllPackages http = (Normal (JArray result), log))
  ∧ match http with
    | Throw error =>
        fetchAllPackages http
        = (Normal (JArray []), [ConsoleError "Error fetching packages:" error])
    | Normal response =>
        match payload_of (data response) with
        | JArray payload =>
            ∃ result,
              fetchAllPackages http = (Normal (JArray result), [])
              ∧ Forall2 (λ x y, normalizeFromBackend x = Normal y) payload result
        | _ => fetchAllPackages http = (Normal (JArray []), [])
        end
    end.
Proof.
  assert (Hmain : match http with
    | Throw error =>
        fetchAllPackages http
        = (Normal (JArray []), [ConsoleError "Error fetching packages:" error])
    | Normal response =>
        match payload_of (data response) with
        | JArray payload =>
            ∃ result,
              fetchAllPackages http = (Normal (JArray result), [])
              ∧ Forall2 (λ x y, normalizeFromBackend x = Normal y) payload result
        | _ => fetchAllPackages http = (Normal (JArray []), [])
        end
    end).
  { destruct http as [response|error]; [|done].
    unfold fetchAllPackages. cbn [mbind completion_bind].
    destruct (unwrap_payload (data response)) as (inner & Hget & Hpayload).
    rewrite Hget. cbn [mbind completion_bind]. rewrite Hpayload.
    destruct (payload_of (data response)) as [| |b|n|s|payload|o]; try done.
    cbn [Array_isArray elements_of].
    destruct (Array_map_normalize payload) as (result & -> & Hall).
    exists result. by split. }
  split; [|exact Hmain].
  destruct http as [response|error]; [|eauto].
  destruct (payload_of (data response)); try eauto.
  destruct Hmain as (result & -> & _). eauto.
Qed.

End packages.

(** * The sample data, run *)

Section samples.

Import Server Lifecycle MessageModel Packages Samples.
Local Open Scope Z_scope.

Example sweep_sample_world :
  cleanupOldQuotations sample_world
  = (Normal tt,
     {| now := today;
        customers := {[ 2 := recent_customer; 3 := confirmed_customer ]};
        quotes := quotes sample_world;
        storeFault := None;
        storeOps := 1;
        console := [ConsoleLog "🧹 Cleaned up 1 old quotations"] |}).
Proof. vm_compute. reflexivity. Qed.

Example sweep_twice_deletes_nothing_more :
  let w1 := (cleanupOldQuotations sample_world).2 in
  customers (cleanupOldQuotations w1).2 = customers w1
  ∧ console (cleanupOldQuotations w1).2 = console w1.
Proof. vm_compute. split; reflexivity. Qed.

Example sweep_at_the_cutoff_retains :
  let c := {| c_name := "Edge"; c_email := "edge@example.com"; c_status := "quotation";
              c_createdAt := Some (today - 30 * 86400000) |} in
  customers (cleanupOldQuotations (set_customers {[ 9 := c ]} sample_world)).2 !! 9 = Some c.
Proof. vm_compute. reflexivity. Qed.

Example sweeps_of_sample_run :
  sweeps after_second_sweep = [today + 10000; today + 10000 + 86400000]
  ∧ timers after_second_sweep
    = [{| due := today + 10000 + 2 * 86400000; callback := CleanupOldQuotations;
          repeat := Some 86400000 |}].
Proof. vm_compute. split; reflexivity. Qed.

Example failed_start_arms_nothing :
  timers (initializeApp (Throw "ECONNREFUSED") (boot sample_world)) = []
  ∧ exitCode (initializeApp (Throw "ECONNREFUSED") (boot sample_world)) = Some 1.
Proof. split; reflexivity. Qed.

Example approve_then_reject :
  ∃ updated w',
    transitionQuote pending_quote "approved" sample_world = (Normal updated, w')
    ∧ status updated = Approved
    ∧ transitionQuote updated "rejected" w' = (Throw InvalidTransition, w').
Proof. eexists _, _. split; [reflexivity|]. split; reflexivity. Qed.

Example unknown_status_rejected :
  transitionQuote pending_quote "archived" sample_world
  = (Throw InvalidTransition, sample_world).
Proof. reflexivity. Qed.

Example contact_form_created :
  create mongoose7 today contact_form
  = inr (<["updatedAt" := SDate today]>
           (<["createdAt" := SDate today]>
              {[ "name" := SString "Thandi"; "email" := SString "thandi@example.com";
                 "subject" := SString "Tent hire"; "message" := SString "Is 12 May free?";
                 "isRead" := SBoolean false; "source" := SString "contact" ]})).
Proof. vm_compute. reflexivity. Qed.

Example unknown_source_rejected :
  create mongoose8 today (<["source" := VString "newsletter"]> contact_form)
  = inl [Enum "source"].
Proof. vm_compute. reflexivity. Qed.

Example null_source_rejected_before_8 :
  create mongoose7 today (<["source" := VNull]> contact_form)
  = inl [Enum "source"].
Proof. vm_compute. reflexivity. Qed.

Example missing_email_rejected :
  create mongoose8 today (delete "email" contact_form) = inl [Required "email"].
Proof. vm_compute. reflexivity. Qed.

Example null_email_rejected :
  create mongoose8 today (<["email" := VNull]> contact_form) = inl [Required "email"].
Proof. vm_compute. reflexivity. Qed.

Example unreadable_date_rejected :
  create mongoose8 today (<["createdAt" := VString "garbage"]> contact_form)
  = inl [CastError "createdAt"].
Proof. vm_compute. reflexivity. Qed.

Example primary_image_chosen :
  normalizeFromBackend package_with_images
  = Normal (JObject (<["imageUrl" := JString "/uploads/b.png"]>
                       (own_props package_with_images))).
Proof. vm_compute. reflexivity. Qed.

Example imageUrl_kept :
  normalizeFromBackend package_with_imageUrl = Normal package_with_imageUrl.
Proof. vm_compute. reflexivity. Qed.

Example fetch_wrapped_payload :
  fetchAllPackages
    (Normal {| data := JObject {[ "message" := JString "ok";
                                  "data" := JArray [package_with_imageUrl; JNull] ]};
               statusCode := 200 |})
  = (Normal (JArray [package_with_imageUrl; JNull]), []).
Proof. vm_compute. reflexivity. Qed.

Example fetch_html_body :
  fetchAllPackages (Normal {| data := JString "<html></html>"; statusCode := 200 |})
  = (Normal (JArray []), []).
Proof. reflexivity. Qed.

Example fetch_network_error :
  fetchAllPackages (Throw "Network Error")
  = (Normal (JArray []), [ConsoleError "Error fetching packages:" "Network Error"]).
Proof. reflexivity. Qed.

End samples.

(** * Further properties of the entry point *)

Section entry_point.

Import Server Terms.
Local Open Scope Z_scope.




Lemma matches_cutoff_mono (t1 t2 : Z) c :
  t1 ≤ t2 →
  matches {| query_status := "quotation"; query_createdAt_lt := t1 - THIRTY_DAYS_MS |} c = true →
  matches {| query_status := "quotation"; query_createdAt_lt := t2 - THIRTY_DAYS_MS |} c = true.
Proof.
  intros Hle. unfold matches; cbn. rewrite !andb_true_iff.
  intros [Hs Hd]. split; [done|]. destruct (c_createdAt c); [|done].
  apply bool_decide_eq_true in Hd. apply bool_decide_eq_true. lia.
Qed.

(** X2. Sweeps compose: with the store answering, a sweep followed by a
    second one [d] ≥ 0 milliseconds later leaves exactly the customers a
    single sweep at the later time leaves.  With [d] = 0, a second sweep at
    the same instant deletes nothing more. *)
Theorem cleanup_then_cleanup (w : World) (d : Z) :
  0 ≤ d →
  storeFault w = None →
  customers (cleanupOldQuotations (set_clock (now w + d) (cleanupOldQuotations w).2)).2
  = customers (cleanupOldQuotations (set_clock (now w + d) w)).2.
Proof.
  intros Hd Hf.
  destruct (cleanup_world w Hf) as (w1 & Hrun1 & Hc1 & _ & _ & Hn1 & _).
  rewrite Hrun1; cbn [snd].
  assert (Hf1 : storeFault w1 = None).
  { revert Hrun1. unfold cleanupOldQuotations, try_catch, mbind, async_bind, bind,
      Date_now, Customer_deleteMany. rewrite Hf. cbn [deletedCount].
    case_bool_decide; intros [= <-]; done. }
  destruct (cleanup_world (set_clock (now w + d) w1) Hf1) as (w2 & -> & Hc2 & _).
  destruct (cleanup_world (set_clock (now w + d) w) Hf) as (w3 & -> & Hc3 & _).
  cbn [snd]. rewrite Hc2, Hc3. cbn [now customers set_clock]. rewrite Hc1.
  apply map_eq. intros id.
  destruct (customers w !! id) as [c|] eqn:Hid.
  - destruct (matches {| query_status := "quotation";
                         query_createdAt_lt := now w + d - THIRTY_DAYS_MS |} c) eqn:Hm2.
    + transitivity (@None Customer); [|symmetry].
      * apply map_lookup_filter_None. right. intros c' Hc'.
        apply map_lookup_filter_Some in Hc' as [Hc' _]. cbn. congruence.
      * apply map_lookup_filter_None. right. intros c' Hc'. cbn. congruence.
    + transitivity (Some c); [|symmetry].
      * apply map_lookup_filter_Some. split; [|done].
        apply map_lookup_filter_Some. split; [done|]. cbn.
        destruct (matches {| query_status := "quotation";
                             query_createdAt_lt := now w - THIRTY_DAYS_MS |} c) eqn:Hm1; [|done].
        apply (matches_cutoff_mono _ (now w + d)) in Hm1; [congruence|lia].
      * by apply map_lookup_filter_Some.
  - transitivity (@None Customer); [|symmetry].
    + apply map_lookup_filter_None. left. apply map_lookup_filter_None. by left.
    + apply map_lookup_filter_None. by left.
Qed.

Lemma cleanup_then_cleanup_sample :
  customers (cleanupOldQuotations
               (set_clock (now Samples.sample_world + 3 * 86400000)
                  (cleanupOldQuotations Samples.sample_world).2)).2
  = customers (cleanupOldQuotations
                 (set_clock (now Samples.sample_world + 3 * 86400000)
                    Samples.sample_world)).2.
Proof. apply (cleanup_then_cleanup Samples.sample_world (3 * 86400000)); [lia|reflexivity]. Defined.




End entry_point.

Section cors.

Import Cors.

(** [split_comma] cuts at every comma and nowhere else: the pieces hold no
    comma and, joined by commas, give the string back. *)
Lemma split_comma_pieces s :
  split_comma s ≠ []
  ∧ foldr (λ piece acc, match acc with
                         | None => Some piece
                         | Some rest => Some (piece +:+ "," +:+ rest)
                         end) None (split_comma s) = Some s.
Proof.
  induction s as [|c s [Hne IH]]; [done|]. cbn [split_comma].
  case_bool_decide as Hc.
  - subst c. split; [done|]. cbn [foldr]. by rewrite IH.
  - destruct (split_comma s) as [|piece pieces] eqn:Hs; [done|]. split; [done|].
    cbn [foldr] in *.
    destruct (foldr _ None pieces) as [rest|]; injection IH as <-; done.
Qed.

(** X3. The CORS policy.  Outside production (also with NODE_ENV unset)
    every origin is accepted; a request without an origin, or with an empty
    one, is accepted everywhere; in production a non-empty origin is accepted
    exactly when it is the trimmed form of one of the comma-separated pieces
    of ALLOWED_ORIGINS, and is otherwise refused with the error naming it;
    with ALLOWED_ORIGINS unset every such origin is refused. *)
Theorem cors_policy (trim : string → string) (env : Env) :
  (NODE_ENV env ≠ Some "production" →
   ∀ origin, corsOrigin trim env origin = Normal true)
  ∧ corsOrigin trim env None = Normal true
  ∧ corsOrigin trim env (Some EmptyString) = Normal true
  ∧ (NODE_ENV env = Some "production" →
     ∀ o, o ≠ EmptyString →
       (corsOrigin trim env (Some o) = Normal true
        ∨ corsOrigin trim env (Some o) = Throw ("CORS: Origin " +:+ o +:+ " not allowed"))
       ∧ (corsOrigin trim env (Some o) = Normal true
          ↔ ∃ s piece, ALLOWED_ORIGINS env = Some s
                       ∧ piece ∈ split_comma s ∧ trim piece = o)
       ∧ (ALLOWED_ORIGINS env = None →
          corsOrigin trim env (Some o) = Throw ("CORS: Origin " +:+ o +:+ " not allowed"))).
Proof.
  split; [|split; [done|split]].
  - intros Hdev [o|]; [|done]. unfold corsOrigin, isDevelopment.
    by rewrite bool_decide_eq_false_2.
  - unfold corsOrigin. rewrite (bool_decide_eq_true_2 (EmptyString = EmptyString)) by done.
    by rewrite orb_true_r.
  - intros Hprod o Ho.
    assert (Hrun : corsOrigin trim env (Some o)
                   = if bool_decide (o ∈ allowedOrigins trim env) then Normal true
                     else Throw ("CORS: Origin " +:+ o +:+ " not allowed")).
    { unfold corsOrigin, isDevelopment.
      rewrite (bool_decide_eq_true_2 _ Hprod), (bool_decide_eq_false_2 _ Ho). done. }
    assert (Hin : o ∈ allowedOrigins trim env
                  ↔ ∃ s piece, ALLOWED_ORIGINS env = Some s
                               ∧ piece ∈ split_comma s ∧ trim piece = o).
    { unfold allowedOrigins, isDevelopment. rewrite (bool_decide_eq_true_2 _ Hprod). cbn.
      destruct (ALLOWED_ORIGINS env) as [s|].
      - rewrite list_elem_of_filter, list_elem_of_fmap. split.
        + intros [_ (piece & -> & Hp)]. eauto.
        + intros (s' & piece & [= <-] & Hp & <-). eauto.
      - split; [by intros ?%elem_of_nil|]. by intros (? & ? & ? & _). }
    rewrite Hrun. case_bool_decide as Hallowed.
    + split; [by left|]. split; [by rewrite <- Hin|].
      intros Hnone. apply Hin in Hallowed as (s & ? & Hs & _). congruence.
    + split; [by right|]. split; [|done].
      split; [done|]. intros Hex. by apply Hin in Hex.
Qed.

End cors.

(** * Further properties of the message schema *)

Section message_documents.

Import MessageModel.




End message_documents.

(** * Further properties of the package screen *)

Section screen.

Import Packages PackageTerms Screen.

Lemma normalizeFromBackend_needed props url :
  needs_imageUrl (JObject props) url →
  normalizeFromBackend (JObject props) = Normal (JObject (<["imageUrl" := url]> props)).
Proof.
  intros Hneeds.
  destruct (normalizeFromBackend_cases (JObject props))
    as [(props' & u & [= <-] & Hu & ->) | [Hnone _]].
  - by rewrite (needs_imageUrl_unique _ _ _ Hneeds Hu).
  - by destruct (Hnone url).
Qed.

Lemma normalizeFromBackend_not_needed pkg :
  (∀ url, ¬ needs_imageUrl pkg url) → normalizeFromBackend pkg = Normal pkg.
Proof.
  intros Hnone.
  destruct (normalizeFromBackend_cases pkg) as [(props & u & _ & Hu & _) | [_ Hrun]];
    [by destruct (Hnone u)|done].
Qed.

Lemma normalizeFromBackend_idempotent_aux pkg :
  ∃ result,
    normalizeFromBackend pkg = Normal result
    ∧ normalizeFromBackend result = Normal result.
Proof.
  destruct (normalizeFromBackend_cases pkg)
    as [(props & url & -> & Hneeds & Hrun) | [Hnone Hrun]].
  - eexists. split; [exact Hrun|].
    apply normalizeFromBackend_not_needed.
    intros u (props' & images & image & [= <-] & Hlacks & _).
    cbn in Hlacks. rewrite lookup_insert_eq in Hlacks. cbn in Hlacks.
    destruct Hneeds as (? & ? & ? & _ & _ & _ & _ & _ & _ & Htruthy). congruence.
  - exists pkg. by split.
Qed.

(** X6. [normalizeFromBackend] is idempotent and never throws: its result,
    normalized again, is that same result; so everything [fetchAllPackages]
    hands to the screen is already in normal form. *)
Theorem normalizeFromBackend_idempotent (pkg : JsValue) (http : Completion string Response) :
  (∃ result,
     normalizeFromBackend pkg = Normal result
     ∧ normalizeFromBackend result = Normal result)
  ∧ (∀ elements lines,
       fetchAllPackages http = (Normal (JArray elements), lines) →
       Forall (λ p, normalizeFromBackend p = Normal p) elements).
Proof.
  split; [apply normalizeFromBackend_idempotent_aux|].
  intros elements lines. destruct http as [response|error].
  - unfold fetchAllPackages. cbn [mbind completion_bind].
    destruct (unwrap_payload (data response)) as (inner & Hget & Hpayload).
    rewrite Hget. cbn [mbind completion_bind]. rewrite Hpayload.
    destruct (Array_map_normalize
                (elements_of (if Array_isArray (payload_of (data response))
                              then payload_of (data response) else JArray [])))
      as (result & -> & Hall).
    cbn [mbind completion_bind]. intros [= <- _].
    clear -Hall. induction Hall as [|x y l l' Hxy _ IH]; constructor; [|done].
    destruct (normalizeFromBackend_idempotent_aux x) as (r & Hr & Hfix). congruence.
  - intros [= <- _]. constructor.
Qed.

Lemma bind_Normal {E A B} (m : Completion E A) (k : A → Completion E B) (b : B) :
  (x ← m; k x) = Normal b → ∃ a, m = Normal a ∧ k a = Normal b.
Proof. destruct m as [a|e]; [|done]. intros H. by exists a. Qed.

Lemma primary_image_needed props url :
  props !! "imageUrl" = None →
  props !! "images" = Some (primary_image url) →
  truthy url = true →
  needs_imageUrl (JObject props) url.
Proof.
  intros Hno Himages Hurl.
  exists props, [JObject {[ "url" := url; "isPrimary" := JBoolean true ]}],
    (JObject {[ "url" := url; "isPrimary" := JBoolean true ]}).
  split; [done|]. split; [cbn; by rewrite Hno|]. split; [exact Himages|].
  split; [done|]. split; [|split; [|done]].
  - left. exists [], []. split; [done|]. split; [|constructor].
    unfold marked. cbn. rewrite lookup_insert_ne by done.
    by rewrite lookup_singleton_eq.
  - cbn. by rewrite lookup_insert_eq.
Qed.

(** X7. The image of an update makes the round trip.  In the payload
    [updatePackage] builds, [imageUrl] is the one of the form; when it is
    truthy the payload carries it as the single primary image, and a package
    holding the payload's other fields (no [imageUrl]) is normalized back to
    the payload itself; when it is given but falsy the images are emptied and
    such a package is left as it is by [normalizeFromBackend]. *)
Theorem update_image_round_trip (lower : string → string)
    (ToString : JsValue → Completion string string)
    (ToNumber : JsValue → Completion string JsValue)
    (packageData : JsValue) (payload : gmap string JsValue) :
  updatePayload lower ToString ToNumber packageData = Normal payload →
  payload !! "imageUrl" = own_props packageData !! "imageUrl"
  ∧ match payload !! "imageUrl" with
    | None | Some JUndefined =>
        payload !! "images" = own_props packageData !! "images"
    | Some url =>
        if truthy url then
          payload !! "images" = Some (primary_image url)
          ∧ normalizeFromBackend (JObject (delete "imageUrl" payload))
            = Normal (JObject payload)
        else
          payload !! "images" = Some (JArray [])
          ∧ normalizeFromBackend (JObject (delete "imageUrl" payload))
            = Normal (JObject (delete "imageUrl" payload))
    end.
Proof.
  intros H. unfold updatePayload in H. cbv zeta in H.
  apply bind_Normal in H as (category & Hc & H).
  apply bind_Normal in H as (with_category & Hwc & H).
  apply bind_Normal in H as (price & Hp & H).
  apply bind_Normal in H as (base & Hb & H).
  set (spread := own_props packageData) in *.
  assert (Hwith : ∀ k, k ≠ "category" → with_category !! k = spread !! k).
  { intros k Hk. destruct (defined category).
    - apply bind_Normal in Hwc as (converted & _ & [= <-]). by rewrite lookup_insert_ne.
    - by injection Hwc as <-. }
  assert (Hbase : ∀ k, k ≠ "basePrice" → k ≠ "category" → base !! k = spread !! k).
  { intros k H1 H2. rewrite <- Hwith by done. destruct (defined price).
    - apply bind_Normal in Hb as (basePrice & _ & [= <-]). by rewrite lookup_insert_ne.
    - by injection Hb as <-. }
  clear Hc Hwc Hp Hb. revert H.
  assert (Hurl : base !! "imageUrl" = spread !! "imageUrl") by by apply Hbase.
  assert (Himg : base !! "images" = spread !! "images") by by apply Hbase.
  destruct (base !! "imageUrl") as [url|] eqn:Hu; cbn [default from_option id].
  - destruct (defined url) eqn:Hdef.
    + intros [= <-]. rewrite lookup_insert_ne by done. rewrite Hu. split; [done|].
      assert (Hcase : (if truthy url then
                 <["images" := if truthy url then primary_image url else JArray []]> base
                   !! "images" = Some (primary_image url)
                 ∧ normalizeFromBackend
                     (JObject (delete "imageUrl"
                        (<["images" := if truthy url then primary_image url else JArray []]> base)))
                   = Normal (JObject
                       (<["images" := if truthy url then primary_image url else JArray []]> base))
               else
                 <["images" := if truthy url then primary_image url else JArray []]> base
                   !! "images" = Some (JArray [])
                 ∧ normalizeFromBackend
                     (JObject (delete "imageUrl"
                        (<["images" := if truthy url then primary_image url else JArray []]> base)))
                   = Normal (JObject (delete "imageUrl"
                       (<["images" := if truthy url then primary_image url else JArray []]> base))))).
      { destruct (truthy url) eqn:Ht.
        - split; [by rewrite lookup_insert_eq|].
          rewrite (normalizeFromBackend_needed _ url).
          + rewrite insert_delete_id; [done|]. by rewrite lookup_insert_ne.
          + apply primary_image_needed; [apply lookup_delete_eq| |done].
            rewrite lookup_delete_ne by done. by rewrite lookup_insert_eq.
        - split; [by rewrite lookup_insert_eq|].
          apply normalizeFromBackend_not_needed.
          intros u (props & images & image & [= <-] & _ & Hi & Hne & _).
          rewrite lookup_delete_ne, lookup_insert_eq in Hi by done.
          injection Hi as <-. done. }
      destruct url; try exact Hcase. done.
    + destruct url; try done. intros [= <-]. rewrite Hu. done.
  - cbn [defined]. intros [= <-]. rewrite Hu. done.
Qed.

Lemma fetchAllPackages_array http :
  ∃ elements lines, fetchAllPackages http = (Normal (JArray elements), lines).
Proof.
  destruct http as [response|error]; [|by eexists _, _].
  unfold fetchAllPackages. cbn [mbind completion_bind].
  destruct (unwrap_payload (data response)) as (inner & Hget & Hpayload).
  rewrite Hget. cbn [mbind completion_bind]. rewrite Hpayload.
  destruct (Array_map_normalize
              (elements_of (if Array_isArray (payload_of (data response))
                            then payload_of (data response) else JArray [])))
    as (result & -> & _).
  by eexists _, _.
Qed.

(** X8. Loading never raises the error banner.  Whatever the request does,
    [loadPackages] ends with the array [fetchAllPackages] resolved to as the
    list (the empty one after a failed request), the error as it was, and the
    page no longer loading; it writes nothing of its own to the console. *)
Theorem loadPackages_never_fails (http : Completion string Response) (s : ListState) :
  ∃ elements lines,
    fetchAllPackages http = (Normal (JArray elements), lines)
    ∧ loadPackages http s
      = ({| packages := JArray elements; loadingPage := false; error := error s |},
         Service <$> lines).
Proof.
  destruct (fetchAllPackages_array http) as (elements & lines & Hfetch).
  exists elements, lines. split; [done|].
  unfold loadPackages. rewrite Hfetch. cbn. by rewrite app_nil_r.
Qed.

(** [filter] with the test of [handleDelete], when no entry is [null] or
    [undefined]; one such entry makes it throw. *)
Lemma without_id_filter id elements :
  Forall (λ pkg, nullish pkg = false) elements →
  without_id id elements
  = Normal (filter (λ pkg, is_string (field pkg "_id") id = false) elements).
Proof.
  induction 1 as [|pkg rest Hpkg _ IH]; [done|].
  cbn [without_id]. rewrite (get_field _ _ Hpkg). cbn [mbind completion_bind].
  rewrite IH. cbn [mbind completion_bind].
  destruct (is_string (field pkg "_id") id) eqn:Hid.
  - by rewrite filter_cons_False by congruence.
  - by rewrite filter_cons_True by done.
Qed.

Lemma without_id_nullish id elements :
  Exists (λ pkg, nullish pkg = true) elements →
  without_id id elements = Throw "TypeError".
Proof.
  induction 1 as [pkg rest Hpkg | pkg rest _ IH].
  - by destruct pkg.
  - cbn [without_id]. rewrite IH. by destruct pkg.
Qed.

(** X9. [handleDelete] changes the list only after the server confirmed the
    deletion.  Declined, it does nothing; without a token it sends no request,
    asks to log in again and navigates to the login page; when the request
    fails the list stays and the error is shown; when it succeeds the list
    loses exactly the packages with that id and the error is untouched.  A
    list holding a [null] entry is the exception: the request is sent, but the
    list stays and the failure message is shown. *)
Theorem handleDelete_outcomes (id : string) (token : Completion string JsValue)
    (http : Completion string Response) (s : ListState) :
  handleDelete id false token http s = (s, [])
  ∧ (∀ tok, token = Normal tok → truthy tok = false →
       handleDelete id true token http s
       = ({| packages := packages s; loadingPage := loadingPage s;
             error := Some "Authentication required. Please log in again." |},
          [Navigate "/admin/login?session=expired"]))
  ∧ (∀ tok e, token = Normal tok → truthy tok = true → http = Throw e →
       handleDelete id true token http s
       = ({| packages := packages s; loadingPage := loadingPage s;
             error := Some "Failed to delete package" |},
          [Delete id tok; Error "Error deleting package:" e]))
  ∧ (∀ tok response elements,
       token = Normal tok → truthy tok = true → http = Normal response →
       packages s = JArray elements →
       (Forall (λ pkg, nullish pkg = false) elements →
        handleDelete id true token http s
        = ({| packages := JArray (filter (λ pkg, is_string (field pkg "_id") id = false)
                                    elements);
              loadingPage := loadingPage s; error := error s |},
           [Delete id tok]))
       ∧ (Exists (λ pkg, nullish pkg = true) elements →
          handleDelete id true token http s
          = ({| packages := packages s; loadingPage := loadingPage s;
                error := Some "Failed to delete package" |},
             [Delete id tok])))
  ∧ (∀ confirmed,
       packages (handleDelete id confirmed token http s).1 = packages s
       ∨ ∃ elements,
           packages s = JArray elements
           ∧ packages (handleDelete id confirmed token http s).1
             = JArray (filter (λ pkg, is_string (field pkg "_id") id = false) elements)
           ∧ error (handleDelete id confirmed token http s).1 = error s
           ∧ confirmed = true
           ∧ ∃ tok response, token = Normal tok ∧ truthy tok = true
                             ∧ http = Normal response).
Proof.
  split; [done|]. split; [|split; [|split]].
  - intros tok -> Htok. unfold handleDelete. by rewrite Htok.
  - intros tok e -> Htok ->. unfold handleDelete. by rewrite Htok.
  - intros tok response elements -> Htok -> Hpk. unfold handleDelete.
    rewrite Htok, Hpk. cbn [negb deletePackage mbind completion_bind]. split.
    + intros Hall. by rewrite (without_id_filter _ _ Hall).
    + intros Hex. by rewrite (without_id_nullish _ _ Hex).
  - intros [|]; [|by left]. unfold handleDelete.
    destruct token as [tok|e]; [|by left].
    destruct (truthy tok) eqn:Htok; [|by left]. cbn [negb].
    destruct http as [response|e]; [|by left].
    cbn [deletePackage mbind completion_bind].
    destruct (packages s) as [| |b|n|str|elements|o] eqn:Hpk; try by left.
    destruct (decide (Forall (λ pkg, nullish pkg = false) elements)) as [Hall|Hnot].
    + right. exists elements. rewrite (without_id_filter _ _ Hall). cbn.
      split; [done|]. split; [done|]. split; [done|]. split; [done|]. eauto.
    + left. apply not_Forall_Exists in Hnot; [|intros x; apply _].
      rewrite (without_id_nullish id elements).
      * done.
      * eapply Exists_impl; [exact Hnot|]. intros pkg. cbn. by destruct (nullish pkg).
Qed.

Lemma filter_not_elem (feature : string) (l : list string) :
  feature ∉ l → filter (λ f, f ≠ feature) l = l.
Proof.
  induction l as [|x l IH]; [done|]. intros [Hx Hl]%not_elem_of_cons.
  rewrite filter_cons_True by done. by rewrite IH.
Qed.

Lemma set_features_same form : set_features (features form) form = form.
Proof. by destruct form. Qed.

(** X10. [handleAddFeature] keeps the feature list clean: it only ever
    appends the trimmed input, never an empty feature and never one already
    listed, so a list without duplicates or blanks stays so; every other
    field of the form is kept, and the input box is emptied exactly when the
    feature was added. *)
Theorem handleAddFeature_keeps_list_clean (trim : string → string)
    (newPackage : PackageForm) (newFeature : string) :
  let after := (handleAddFeature trim newPackage newFeature).1 in
  let input := (handleAddFeature trim newPackage newFeature).2 in
  set_features (features newPackage) after = newPackage
  ∧ ((features after = features newPackage ∧ input = newFeature
      ∧ (trim newFeature = EmptyString ∨ trim newFeature ∈ features newPackage))
     ∨ (features after = features newPackage ++ [trim newFeature] ∧ input = EmptyString
        ∧ trim newFeature ≠ EmptyString ∧ trim newFeature ∉ features newPackage))
  ∧ (NoDup (features newPackage) → NoDup (features after))
  ∧ (Forall (λ f, f ≠ EmptyString) (features newPackage) →
     Forall (λ f, f ≠ EmptyString) (features after)).
Proof.
  cbv zeta. unfold handleAddFeature.
  case_bool_decide as Hblank; cbn [negb andb].
  { split; [apply set_features_same|]. split; [left; auto|]. done. }
  case_bool_decide as Hlisted; cbn [negb andb fst snd].
  { split; [apply set_features_same|]. split; [left; auto|]. done. }
  split; [by destruct newPackage|]. split; [right; auto|]. cbn. split.
  - intros Hnd. apply NoDup_app. split; [done|]. split; [|apply NoDup_singleton].
    intros x Hx ->%list_elem_of_singleton. done.
  - intros Hall. apply Forall_app. split; [done|]. by constructor.
Qed.

(** X11. [removeFeature] deletes every occurrence of the feature and nothing
    else: the feature is gone, the others keep their order, a feature that is
    not listed leaves the form as it is, and removing the feature that
    [handleAddFeature] has just appended gives the earlier form back. *)
Theorem removeFeature_undoes_add (trim : string → string)
    (newPackage : PackageForm) (feature : string) :
  (feature ∉ features (removeFeature newPackage feature))
  ∧ (∀ other, other ≠ feature →
       (other ∈ features (removeFeature newPackage feature) ↔ other ∈ features newPackage))
  ∧ sublist (features (removeFeature newPackage feature)) (features newPackage)
  ∧ (feature ∉ features newPackage → removeFeature newPackage feature = newPackage)
  ∧ ((handleAddFeature trim newPackage feature).1 ≠ newPackage →
     removeFeature (handleAddFeature trim newPackage feature).1 (trim feature) = newPackage).
Proof.
  split; [|split; [|split; [|split]]].
  - cbn. rewrite list_elem_of_filter. by intros [? _].
  - intros other Hne. cbn. rewrite list_elem_of_filter.
    split; [by intros [_ ?]|by intros ?].
  - cbn. apply sublist_filter.
  - intros Hnot. unfold removeFeature. rewrite (filter_not_elem _ _ Hnot).
    apply set_features_same.
  - unfold handleAddFeature.
    case_bool_decide as Hblank; cbn [negb andb fst]; [done|].
    case_bool_decide as Hlisted; cbn [negb andb fst]; [done|].
    intros _. unfold removeFeature. cbn.
    rewrite filter_app, (filter_not_elem _ _ Hlisted).
    rewrite filter_cons_False by (intros Hne; by apply Hne).
    rewrite filter_nil, app_nil_r. by destruct newPackage.
Qed.

Lemma is_string_eq v s : is_string v s = true → v = JString s.
Proof. destruct v; cbn; try done. by intros ->%bool_decide_eq_true. Qed.

Lemma Array_filter_sound test elements kept :
  Array_filter test elements = Normal kept →
  sublist kept elements ∧ Forall (λ p, test p = Normal true) kept.
Proof.
  revert kept. induction elements as [|x rest IH]; intros kept.
  - intros [= <-]. split; constructor.
  - cbn [Array_filter]. destruct (test x) as [keep|] eqn:Hx; [|done].
    destruct (Array_filter test rest) as [kept'|]; [|done].
    cbn [mbind completion_bind]. intros [= <-].
    destruct (IH kept' eq_refl) as [Hsub Hall].
    destruct keep; split; try done.
    + by constructor.
    + by constructor.
    + by constructor.
Qed.

Lemma shown_true lower includes c p :
  shown lower includes c p = Normal true →
  truthy p = true
  ∧ (categoryFilter c ≠ "all" → field p "category" = JString (categoryFilter c))
  ∧ (onlyPopular c = true → truthy (field p "isPopular") = true)
  ∧ (onlyFeatured c = true → truthy (field p "isFeatured") = true).
Proof.
  unfold shown. destruct (truthy p) eqn:Hp; [|done]. cbn [negb].
  rewrite !(get_field p) by by apply truthy_not_nullish.
  destruct (if negb (bool_decide (search c = EmptyString)) then _ else _)
    as [matchesSearch|]; [|done].
  cbn [mbind completion_bind]. intros [= Hall].
  apply andb_true_iff in Hall as [Hall Hfeatured].
  apply andb_true_iff in Hall as [Hall Hpopular].
  apply andb_true_iff in Hall as [_ Hcategory].
  split; [done|]. split; [|split].
  - intros Hne. rewrite bool_decide_eq_false_2 in Hcategory by done.
    by apply is_string_eq.
  - intros Hon. by rewrite Hon in Hpopular.
  - intros Hon. by rewrite Hon in Hfeatured.
Qed.

Lemma shown_without_search lower includes c p :
  search c = EmptyString →
  shown lower includes c p
  = Normal (truthy p
            && (if bool_decide (categoryFilter c = "all") then true
                else is_string (field p "category") (categoryFilter c))
            && (if onlyPopular c then truthy (field p "isPopular") else true)
            && (if onlyFeatured c then truthy (field p "isFeatured") else true)).
Proof.
  intros Hs. unfold shown. rewrite Hs. destruct (truthy p) eqn:Hp; [|done].
  cbn [negb]. rewrite !(get_field p) by by apply truthy_not_nullish. done.
Qed.

Lemma Array_filter_total (test : JsValue → Completion string bool) (f : JsValue → bool)
    elements :
  (∀ p, test p = Normal (f p)) →
  Array_filter test elements = Normal (filter (λ p, f p = true) elements).
Proof.
  intros Htest. induction elements as [|x rest IH]; [done|].
  cbn [Array_filter]. rewrite Htest, IH. cbn [mbind completion_bind].
  destruct (f x) eqn:Hx.
  - by rewrite filter_cons_True.
  - by rewrite filter_cons_False by congruence.
Qed.

(** X13. The filtered view.  Whenever [viewList] is computed, what it shows
    is a sublist of the packages, in their order, of truthy entries that
    satisfy every active control: the chosen category (unless it is "all"),
    popular and featured when those boxes are ticked.  With an empty search
    box it cannot throw, and with the controls as they are at mount it shows
    every package that is not [null]. *)
Theorem viewList_shows_matching (lower : string → string)
    (includes : string → string → bool) (c : ViewControls) (packages : JsValue) :
  (∀ view, viewList lower includes c packages = Normal view →
     sublist view (elements_of packages)
     ∧ Forall (λ p, truthy p = true
                    ∧ (categoryFilter c ≠ "all" →
                       field p "category" = JString (categoryFilter c))
                    ∧ (onlyPopular c = true → truthy (field p "isPopular") = true)
                    ∧ (onlyFeatured c = true → truthy (field p "isFeatured") = true))
         view)
  ∧ (search c = EmptyString → ∃ view, viewList lower includes c packages = Normal view)
  ∧ viewList lower includes default_controls packages
    = Normal (filter (λ p, truthy p = true) (elements_of packages)).
Proof.
  assert (Hlist : elements_of (if Array_isArray packages then packages else JArray [])
                  = elements_of packages) by by destruct packages.
  unfold viewList. rewrite Hlist. split; [|split].
  - intros view [Hsub Hall]%Array_filter_sound. split; [done|].
    eapply Forall_impl; [exact Hall|]. intros p. apply shown_true.
  - intros Hs. eexists. apply Array_filter_total. intros p.
    by apply shown_without_search.
  - rewrite (Array_filter_total _ truthy); [done|].
    intros p. rewrite shown_without_search by done. cbn.
    by rewrite !andb_true_r.
Qed.

Lemma unwrap_or_total body : ∃ inner, unwrap_or body = Normal inner.
Proof.
  unfold unwrap_or. destruct (nullish body) eqn:Hn; [by eexists|].
  rewrite (get_field _ _ Hn). by eexists.
Qed.

(** X12. How [updatePackage] ends.  It rejects without sending anything when
    the payload or the authorization header cannot be built, with the error
    of the failure, which it logs; otherwise exactly one PUT carries the
    payload, a failed request is logged and rethrown with its error, and a
    resolved result is a fixed point of [normalizeFromBackend].  The payload
    can be built exactly when there is form data, a defined category
    converts to a string and a defined price converts to a number. *)
Theorem updatePackage_outcomes (lower : string → string)
    (ToString : JsValue → Completion string string)
    (ToNumber : JsValue → Completion string JsValue)
    (id : string) (packageData token : JsValue) (http : Completion string Response) :
  match updatePayload lower ToString ToNumber packageData, bearer ToString token with
  | Normal payload, Normal authorization =>
      match http with
      | Throw e =>
          updatePackage lower ToString ToNumber id packageData token http
          = (Throw e, [Put id authorization payload; Error "Error updating package:" e])
      | Normal response =>
          ∃ result,
            updatePackage lower ToString ToNumber id packageData token http
            = (Normal result, [Put id authorization payload])
            ∧ normalizeFromBackend result = Normal result
      end
  | Throw e, _ | Normal _, Throw e =>
      updatePackage lower ToString ToNumber id packageData token http
      = (Throw e, [Error "Error updating package:" e])
  end
  ∧ ((∃ payload, updatePayload lower ToString ToNumber packageData = Normal payload)
     ↔ nullish packageData = false
       ∧ (defined (field packageData "category") = true →
          ∃ converted, text ToString (field packageData "category") = Normal converted)
       ∧ (defined (field packageData "price") = true →
          ∃ basePrice, ToNumber (field packageData "price") = Normal basePrice)).
Proof.
  split.
  - unfold updatePackage.
    destruct (updatePayload lower ToString ToNumber packageData) as [payload|e]; [|done].
    destruct (bearer ToString token) as [authorization|e]; [|done].
    cbn [mbind completion_bind].
    destruct http as [response|e]; [|done]. cbn [mbind completion_bind].
    destruct (unwrap_or_total (data response)) as [updated ->]. cbn [mbind completion_bind].
    destruct (normalizeFromBackend_idempotent_aux updated) as (result & Hrun & Hfix).
    rewrite Hrun. eauto.
  - unfold updatePayload. cbv zeta.
    destruct (nullish packageData) eqn:Hdata.
    { split; [|by intros [[=] _]]. intros [payload H]. by destruct packageData. }
    rewrite !(get_field _ _ Hdata). cbn [mbind completion_bind].
    destruct (defined (field packageData "category")) eqn:Hc.
    + destruct (text ToString (field packageData "category")) as [converted|e];
        cbn [mbind completion_bind].
      * destruct (defined (field packageData "price")) eqn:Hp.
        -- destruct (ToNumber (field packageData "price")) as [basePrice|e];
             cbn [mbind completion_bind].
           ++ split; [intros _; eauto|intros _].
              destruct (defined (default JUndefined (_ !! "imageUrl"))); eauto.
           ++ split; [by intros [payload [=]]|].
              intros (_ & _ & Hn). by destruct (Hn eq_refl).
        -- cbn [mbind completion_bind].
           split; [intros _; split; [done|]; split; [eauto|done]|intros _].
           destruct (defined (default JUndefined (_ !! "imageUrl"))); eauto.
      * split; [by intros [payload [=]]|].
        intros (_ & Hs & _). by destruct (Hs eq_refl).
    + cbn [mbind completion_bind].
      destruct (defined (field packageData "price")) eqn:Hp.
      * destruct (ToNumber (field packageData "price")) as [basePrice|e];
          cbn [mbind completion_bind].
        -- split; [intros _; split; [done|]; split; [done|eauto]|intros _].
           destruct (defined (default JUndefined (_ !! "imageUrl"))); eauto.
        -- split; [by intros [payload [=]]|].
           intros (_ & _ & Hn). by destruct (Hn eq_refl).
      * cbn [mbind completion_bind].
        split; [done|intros _].
        destruct (defined (default JUndefined (_ !! "imageUrl"))); eauto.
Qed.

Lemma get_or_TypeError_field v key :
  nullish v = false → get_or_TypeError v key = Normal (field v key).
Proof. by destruct v. Qed.

(** X14. The payload of a new package.  Whenever [createNewPackage] has a
    payload to send, it holds no [imageUrl], its features are an array, its
    two flags are booleans, its category is a string and its description is
    a truthy value or the empty string; a truthy [imageUrl] of the form is
    sent as the single primary image, from which [normalizeFromBackend]
    recovers it, and otherwise the images of the form are sent as they
    are. *)
Theorem createPayload_shape (lower : string → string)
    (ToNumber : JsValue → Completion string JsValue)
    (packageData : JsValue) (payload : gmap string JsValue) :
  createPayload lower ToNumber packageData = Normal payload →
  payload !! "imageUrl" = None
  ∧ (∃ elements, payload !! "features" = Some (JArray elements))
  ∧ (∃ popular featured,
       payload !! "isPopular" = Some (JBoolean popular)
       ∧ payload !! "isFeatured" = Some (JBoolean featured))
  ∧ (∃ c, payload !! "category" = Some (JString c))
  ∧ (∃ d, payload !! "description" = Some d ∧ (truthy d = true ∨ d = JString EmptyString))
  ∧ (if truthy (field packageData "imageUrl") then
       payload !! "images" = Some (primary_image (field packageData "imageUrl"))
       ∧ normalizeFromBackend (JObject payload)
         = Normal (JObject (<["imageUrl" := field packageData "imageUrl"]> payload))
     else payload !! "images" = Some (field packageData "images")).
Proof.
  unfold createPayload.
  destruct (nullish packageData) eqn:Hdata; [by destruct packageData|].
  rewrite !(get_or_TypeError_field _ _ Hdata). cbn [mbind completion_bind].
  destruct (match (if truthy (field packageData "category")
                   then field packageData "category" else JString "other") with
            | JString s => Normal (lower s)
            | _ => Throw TypeError
            end) as [c|] eqn:Hc; [|done].
  cbn [mbind completion_bind].
  destruct (if defined (field packageData "price")
            then or_TypeError (ToNumber (field packageData "price"))
            else Normal JUndefined) as [basePrice|] eqn:Hprice; [|done].
  cbn [mbind completion_bind].
  set (base := ({[ "name" := _; "description" := _; "category" := _; "basePrice" := _;
                   "features" := _; "includedServices" := _; "includedEquipment" := _;
                   "specifications" := _; "isPopular" := _; "isFeatured" := _;
                   "images" := _ ]} : gmap string JsValue)).
  assert (Hurl : base !! "imageUrl" = None).
  { unfold base. repeat (rewrite lookup_insert_ne by done). by rewrite lookup_singleton_ne. }
  assert (Hfeat : ∃ elements, base !! "features" = Some (JArray elements)).
  { unfold base. do 4 (rewrite lookup_insert_ne by done). rewrite lookup_insert_eq.
    destruct (field packageData "features"); cbn; eauto. }
  assert (Hflags : ∃ popular featured,
            base !! "isPopular" = Some (JBoolean popular)
            ∧ base !! "isFeatured" = Some (JBoolean featured)).
  { eexists _, _. unfold base. split.
    - do 8 (rewrite lookup_insert_ne by done). by rewrite lookup_insert_eq.
    - do 9 (rewrite lookup_insert_ne by done). by rewrite lookup_insert_eq. }
  assert (Hcat : base !! "category" = Some (JString c)).
  { unfold base. do 2 (rewrite lookup_insert_ne by done). by rewrite lookup_insert_eq. }
  assert (Hdesc : ∃ d, base !! "description" = Some d
                       ∧ (truthy d = true ∨ d = JString EmptyString)).
  { eexists. unfold base. rewrite lookup_insert_ne by done. rewrite lookup_insert_eq.
    split; [done|]. destruct (truthy (field packageData "description")) eqn:Ht; auto. }
  assert (Himages : base !! "images" = Some (field packageData "images")).
  { unfold base. do 10 (rewrite lookup_insert_ne by done). by rewrite lookup_singleton_eq. }
  clearbody base.
  destruct (truthy (field packageData "imageUrl")) eqn:Ht; intros [= <-].
  - rewrite (lookup_insert_ne base "images" "imageUrl"),
      (lookup_insert_ne base "images" "features"),
      (lookup_insert_ne base "images" "isPopular"),
      (lookup_insert_ne base "images" "isFeatured"),
      (lookup_insert_ne base "images" "category"),
      (lookup_insert_ne base "images" "description") by done.
    do 3 (split; [done|]). split; [eauto|]. split; [done|].
    split; [by rewrite lookup_insert_eq|].
    apply normalizeFromBackend_needed, primary_image_needed; [|by rewrite lookup_insert_eq|done].
    by rewrite lookup_insert_ne.
  - do 3 (split; [done|]). split; [eauto|]. done.
Qed.

Lemma or_TypeError_throws {A} (c : Completion string A) error :
  or_TypeError c = Throw error → error = TypeError.
Proof. destruct c; [done|]. by intros [= <-]. Qed.

Lemma createPayload_throws lower ToNumber packageData error :
  createPayload lower ToNumber packageData = Throw error → error = TypeError.
Proof.
  unfold createPayload.
  destruct (nullish packageData) eqn:Hdata.
  { destruct packageData; try done; by intros [= <-]. }
  rewrite !(get_or_TypeError_field _ _ Hdata). cbn [mbind completion_bind].
  destruct (if truthy (field packageData "category")
            then field packageData "category" else JString "other");
    cbn [mbind completion_bind]; try (by intros [= <-]).
  destruct (defined (field packageData "price")).
  - destruct (ToNumber (field packageData "price")); cbn [or_TypeError mbind completion_bind].
    + by destruct (truthy (field packageData "imageUrl")).
    + by intros [= <-].
  - cbn [mbind completion_bind]. by destruct (truthy (field packageData "imageUrl")).
Qed.

Lemma rejection_outcome ToString join r :
  match rejection ToString join r with
  | Normal error => response error = Some r
  | Throw error => error = TypeError
  end.
Proof.
  unfold rejection.
  destruct (Array_isArray (optional (data r) "errors")).
  - destruct (join _) as [joined|e]; cbn [or_TypeError mbind completion_bind]; [|done].
    destruct (text ToString _) as [head|e]; cbn [or_TypeError mbind completion_bind]; done.
  - cbn [mbind completion_bind].
    destruct (text ToString _) as [head|e]; cbn [or_TypeError mbind completion_bind]; done.
Qed.

(** X15. How [createNewPackage] ends.  When the payload or the authorization
    header cannot be built nothing is sent, and the error that reaches the
    caller says "Network error", as it does when the server gave no answer.
    A response below 400 resolves to a package in normal form; one from 400
    to 499 rejects with the error built from the body (its message, or
    "Failed to create package", followed by the joined validation errors),
    which carries the response, and when that error cannot be built (a
    message or an error entry that does not convert to a string) with
    "Network error" and no response; one of 500 or more rejects with the
    request error and its response.  At most one POST is sent, with the
    payload. *)
Theorem createNewPackage_outcomes (lower : string → string)
    (ToString : JsValue → Completion string string)
    (ToNumber : JsValue → Completion string JsValue)
    (join : list JsValue → Completion string string)
    (packageData token : JsValue) (reply : Reply) :
  let network_error :=
    {| message := "Network error: Could not connect to the server. Please check your connection.";
       response := None |} in
  match createPayload lower ToNumber packageData, bearer ToString token with
  | Normal payload, Normal authorization =>
      let sent := Some (authorization, payload) in
      match reply with
      | NoReply _ =>
          createNewPackage lower ToString ToNumber join packageData token reply
          = (Throw network_error, sent)
      | Replied r =>
          if bool_decide (statusCode r < 400)%Z then
            ∃ result,
              createNewPackage lower ToString ToNumber join packageData token reply
              = (Normal result, sent)
              ∧ normalizeFromBackend result = Normal result
          else if bool_decide (statusCode r < 500)%Z then
            match rejection ToString join r with
            | Normal error =>
                createNewPackage lower ToString ToNumber join packageData token reply
                = (Throw error, sent)
                ∧ response error = Some r
            | Throw _ =>
                createNewPackage lower ToString ToNumber join packageData token reply
                = (Throw network_error, sent)
            end
          else
            createNewPackage lower ToString ToNumber join packageData token reply
            = (Throw {| message := "Request failed with status code "
                                   +:+ pretty (statusCode r);
                        response := Some r |}, sent)
      end
  | _, _ =>
      createNewPackage lower ToString ToNumber join packageData token reply
      = (Throw network_error, None)
  end.
Proof.
  cbv zeta. unfold createNewPackage.
  destruct (createPayload lower ToNumber packageData) as [payload|error] eqn:Hpayload.
  - destruct (bearer ToString token) as [authorization|e];
      cbn [or_TypeError mbind completion_bind]; [|done].
    destruct reply as [reason|r]; [done|]. cbn [axios_below_500].
    case_bool_decide as H400.
    + rewrite bool_decide_eq_true_2 by lia. cbn [mbind completion_bind].
      rewrite bool_decide_eq_false_2 by lia.
      destruct (unwrap_or_total (data r)) as [created ->].
      destruct (normalizeFromBackend_idempotent_aux created) as (result & -> & Hfix).
      eauto.
    + case_bool_decide as H500; cbn [mbind completion_bind]; [|done].
      rewrite bool_decide_eq_true_2 by lia.
      pose proof (rejection_outcome ToString join r) as Hrej.
      destruct (rejection ToString join r) as [error|error]; cbn [mbind completion_bind].
      * by rewrite Hrej.
      * by rewrite Hrej.
  - apply createPayload_throws in Hpayload as ->. cbn [mbind completion_bind].
    by destruct (bearer ToString token).
Qed.

End screen.

(** * The further sample data, run *)

Section more_samples.

Import Packages PackageTerms Screen Cors MoreSamples.

Lemma update_image_round_trip_sample :
  normalizeFromBackend (JObject (delete "imageUrl" edit_payload))
  = Normal (JObject edit_payload).
Proof.
  destruct (update_image_round_trip same string_of number_of edit_form edit_payload)
    as [_ Hround]; [vm_compute; reflexivity|].
  change (edit_payload !! "imageUrl") with (Some (JString "/uploads/g.png")) in Hround.
  cbn [truthy negb] in Hround.
  change (bool_decide ("/uploads/g.png" = EmptyString)) with false in Hround.
  cbn [negb] in Hround. exact (proj2 Hround).
Defined.

Lemma createPayload_shape_sample :
  normalizeFromBackend (JObject new_payload)
  = Normal (JObject (<["imageUrl" := JString "/uploads/n.png"]> new_payload)).
Proof.
  destruct (createPayload_shape same number_of new_form new_payload)
    as (_ & _ & _ & _ & _ & Himage); [vm_compute; reflexivity|].
  change (field new_form "imageUrl") with (JString "/uploads/n.png") in Himage.
  change (truthy (JString "/uploads/n.png")) with true in Himage.
  exact (proj2 Himage).
Defined.

Example create_answers :
  (createNewPackage same string_of number_of join_of new_form (JString "jwt")
     (Replied {| data := JObject {[ "message" := JString "Validation failed";
                                    "errors" := JArray [JString "name is required"] ]};
                 statusCode := 400 |})).1
  = Throw {| message := "Validation failed: name is required";
             response := Some {| data := JObject {[ "message" := JString "Validation failed";
                                                    "errors" := JArray [JString "name is required"] ]};
                                 statusCode := 400 |} |}
  ∧ (createNewPackage same string_of number_of join_of JNull (JString "jwt")
       (Replied {| data := JNull; statusCode := 201 |}))
    = (Throw {| message := "Network error: Could not connect to the server. Please check your connection.";
                response := None |}, None).
Proof. vm_compute. split; reflexivity. Qed.

Example create_answer_without_text :
  createNewPackage same string_of number_of join_of new_form (JString "jwt")
    (Replied {| data := JObject {[ "message" := JObject {[ "toString" := JNumber 5 ]} ]};
                statusCode := 400 |})
  = (Throw {| message := "Network error: Could not connect to the server. Please check your connection.";
              response := None |},
     Some ("Bearer jwt", new_payload)).
Proof. vm_compute. reflexivity. Qed.

Example update_without_category_text :
  updatePackage same string_of number_of "p1" odd_form (JString "jwt")
    (Normal {| data := gold; statusCode := 200 |})
  = (Throw "TypeError", [Error "Error updating package:" "TypeError"]).
Proof. vm_compute. reflexivity. Qed.

Example update_sends_once :
  updatePackage same string_of number_of "p1" edit_form (JString "jwt")
    (Normal {| data := JObject {[ "data" := gold ]}; statusCode := 200 |})
  = (Normal gold, [Put "p1" "Bearer jwt" edit_payload]).
Proof. vm_compute. reflexivity. Qed.

Example spread_of_a_string :
  own_props (JString "né")
  = {[ "0" := JString "n"; "1" := JString "é" ]}.
Proof. vm_compute. reflexivity. Qed.

Example spread_of_a_surrogate_pair :
  own_props (JString (String "240" (String "159" (String "152" (String "128" EmptyString)))))
  = {[ "0" := JString (String "237" (String "160" (String "189" EmptyString)));
       "1" := JString (String "237" (String "184" (String "128" EmptyString))) ]}.
Proof. vm_compute. reflexivity. Qed.

Example get_package_unwraps :
  getPackageById (Normal {| data := JObject {[ "data" := gold ]}; statusCode := 200 |})
  = (Normal gold, [])
  ∧ getPackageById (Normal {| data := gold; statusCode := 200 |}) = (Normal gold, [])
  ∧ getPackageById (Throw "Request failed with status code 404")
    = (Throw "Request failed with status code 404",
       [Error "Error fetching package:" "Request failed with status code 404"]).
Proof. vm_compute. repeat split. Qed.

Example cors_production :
  corsOrigin same production (Some "https://admin.eaglesevents.co.za") = Normal true
  ∧ corsOrigin same production (Some "https://evil.example")
    = Throw "CORS: Origin https://evil.example not allowed"
  ∧ corsOrigin same production None = Normal true.
Proof. vm_compute. repeat split. Qed.

Example split_comma_samples :
  split_comma "a,,b," = ["a"; EmptyString; "b"; EmptyString]
  ∧ split_comma EmptyString = [EmptyString].
Proof. split; reflexivity. Qed.

Example update_payload_sample :
  updatePayload same string_of number_of edit_form = Normal edit_payload.
Proof. vm_compute. reflexivity. Qed.

Example update_clears_images :
  updatePayload same string_of number_of
    (JObject {[ "name" := JString "gold"; "imageUrl" := JString EmptyString ]})
  = Normal {[ "name" := JString "gold"; "imageUrl" := JString EmptyString;
              "images" := JArray [] ]}.
Proof. vm_compute. reflexivity. Qed.

Example load_after_network_error :
  loadPackages (Throw "Network Error") mounted
  = ({| packages := JArray []; loadingPage := false; error := None |},
     [Service (ConsoleError "Error fetching packages:" "Network Error")]).
Proof. reflexivity. Qed.

Example delete_gold :
  handleDelete "p1" true (Normal (JString "jwt"))
    (Normal {| data := JObject {[ "message" := JString "Package deleted" ]};
               statusCode := 200 |}) listed
  = ({| packages := JArray [silver]; loadingPage := false; error := None |},
     [Delete "p1" (JString "jwt")]).
Proof. vm_compute. reflexivity. Qed.

Example delete_with_null_entry :
  handleDelete "p1" true (Normal (JString "jwt"))
    (Normal {| data := JNull; statusCode := 200 |})
    {| packages := JArray [gold; JNull]; loadingPage := false; error := None |}
  = ({| packages := JArray [gold; JNull]; loadingPage := false;
        error := Some "Failed to delete package" |},
     [Delete "p1" (JString "jwt")]).
Proof. vm_compute. reflexivity. Qed.

Example add_feature_trimmed_sample :
  handleAddFeature same starter_form "1 Mobile Freezer"
  = (set_features ["1 Medium Tent (10m x 20m)"; "1 VIP Mobile Toilet"; "1 Mobile Freezer"]
       starter_form, EmptyString)
  ∧ handleAddFeature same starter_form "1 VIP Mobile Toilet"
    = (starter_form, "1 VIP Mobile Toilet").
Proof. split; reflexivity. Qed.

Example view_by_category :
  viewList same starts_with
    {| search := EmptyString; categoryFilter := "wedding";
       onlyPopular := false; onlyFeatured := false |}
    (JArray [gold; JNull; silver])
  = Normal [gold].
Proof. vm_compute. reflexivity. Qed.

Example view_search_on_numeric_name_throws :
  viewList same starts_with
    {| search := "go"; categoryFilter := "all";
       onlyPopular := false; onlyFeatured := false |}
    (JArray [JObject {[ "name" := JNumber 5 ]}])
  = Throw "TypeError".
Proof. vm_compute. reflexivity. Qed.

End more_samples.
